(** * PWS_SITE: the application intake pipeline of [server.js]

  A shallow embedding of the Express application in [src/server.js]:
  the multer upload configuration (disk storage, file filter, size
  limit), the middleware stack in registration order, and the
  [POST /enviar-candidatura] route handler with its file clean-up,
  followed by the properties of the specification.

  Conventions.
  - A JavaScript string is the list of its UTF-16 code units.
  - The file system is the finite set of paths that exist.
  - A request runs against a [World] (file system and the trace of
    observable effects) and an [Env] holding everything the run reads
    from outside: the clock, [Math.random], the environment variables
    and the answers of the SMTP transport. *)

From Stdlib Require Import String Ascii List NArith Lia DecimalN.
From stdpp Require Import base decidable option list countable gmap.
Import ListNotations.

#[local] Set Warnings "-clear-no-such-hyp".

Local Open Scope N_scope.
Local Open Scope list_scope.

(** ** JavaScript strings *)

Module Js.

(** A string value: UTF-16 code units. *)
Abbreviation str := (list N).

Fixpoint bytes (s : string) : list N :=
  match s with
  | EmptyString => []
  | String a s' => N_of_ascii a :: bytes s'
  end.

(** Source text is UTF-8; the literals of [server.js] only use code
    points below U+10000, encoded on one, two or three bytes. *)
Fixpoint decode (bs : list N) : str :=
  match bs with
  | [] => []
  | b :: rest =>
      if b <? 128 then b :: decode rest
      else if b <? 224 then
        match rest with
        | c :: rest' => ((b mod 32) * 64 + c mod 64) :: decode rest'
        | [] => [b]
        end
      else
        match rest with
        | c :: d :: rest' =>
            ((b mod 16) * 4096 + (c mod 64) * 64 + d mod 64) :: decode rest'
        | _ => [b]
        end
  end.

(** A string literal of the source. *)
Definition lit (s : string) : str := decode (bytes s).
Arguments lit : simpl never.

Definition dquote : str := [34].
Definition newline : str := [10].

(** [String(n)] for a non-negative integer below 1e21: its decimal
    digits, most significant first. *)
Fixpoint digits (d : Decimal.uint) : str :=
  match d with
  | Decimal.Nil => []
  | Decimal.D0 d => 48 :: digits d
  | Decimal.D1 d => 49 :: digits d
  | Decimal.D2 d => 50 :: digits d
  | Decimal.D3 d => 51 :: digits d
  | Decimal.D4 d => 52 :: digits d
  | Decimal.D5 d => 53 :: digits d
  | Decimal.D6 d => 54 :: digits d
  | Decimal.D7 d => 55 :: digits d
  | Decimal.D8 d => 56 :: digits d
  | Decimal.D9 d => 57 :: digits d
  end.

Definition of_number (n : N) : str := digits (N.to_uint n).

Definition is_digit (c : N) : bool := (48 <=? c) && (c <=? 57).

(** Truthiness of a value that is either [undefined] or a string:
    [undefined] and the empty string are falsy. *)
Definition truthy (v : option str) : bool :=
  match v with
  | Some (_ :: _) => true
  | _ => false
  end.

(** [String(v)], as template literals and [RegExp.prototype.test] apply it. *)
Definition to_string (v : option str) : str :=
  match v with
  | Some s => s
  | None => lit "undefined"
  end.

(** [v || d] on such a value. *)
Definition or_default (v : option str) (d : str) : str :=
  match v with
  | Some (c :: s) => c :: s
  | _ => d
  end.

(** The class [\s]: WhiteSpace and LineTerminator code units. *)
Definition is_space (c : N) : bool :=
  ((9 <=? c) && (c <=? 13))
  || (c =? 32) || (c =? 160) || (c =? 5760)
  || ((8192 <=? c) && (c <=? 8202))
  || (c =? 8232) || (c =? 8233) || (c =? 8239) || (c =? 8287)
  || (c =? 12288) || (c =? 65279).

End Js.

(** ** Regular expressions

  The fragment [server.js] uses: an anchored sequence of single-unit
  atoms, each taken once or one-or-more times. *)

Module Regex.

Inductive atom :=
| Lit (c : N)                 (* a literal unit, e.g. [@] or [\.] *)
| NotIn (cls : N -> bool).    (* a negated class [[^...]] *)

Inductive quant := Once | OneOrMore.

(** [^ item ... item $] *)
Definition t := list (atom * quant).

Definition accepts (a : atom) (c : N) : bool :=
  match a with
  | Lit c' => c =? c'
  | NotIn cls => negb (cls c)
  end.

(** Backtracking match of the whole input: a [+] first tries to take
    one more unit and falls back to the rest of the pattern. *)
Fixpoint test (r : t) : Js.str -> bool :=
  match r with
  | [] => fun s => match s with [] => true | _ => false end
  | (a, Once) :: r' =>
      fun s =>
        match s with
        | c :: s' => accepts a c && test r' s'
        | [] => false
        end
  | (a, OneOrMore) :: r' =>
      fix more (s : Js.str) : bool :=
        match s with
        | c :: s' => accepts a c && (more s' || test r' s')
        | [] => false
        end
  end.

End Regex.

(** ** Data model *)

(** The multipart part carrying the resume, as the client sent it. *)
Record FilePart := {
  part_originalname : Js.str;
  part_mimetype : Js.str;
  part_size : N                      (* bytes *)
}.

(** The text fields of a form; an absent field reads [undefined]. *)
Record Body := {
  name : option Js.str;
  email : option Js.str;
  position : option Js.str
}.

(** A multipart submission. *)
Record Submission := {
  fields : Body;
  resume : option FilePart
}.

(** [req.file] as multer's disk storage fills it. *)
Record UploadedFile := {
  originalname : Js.str;
  mimetype : Js.str;
  destination : Js.str;
  filename : Js.str;
  path : Js.str;
  size : N
}.

Inductive Method := GET | HEAD | POST | PUT | DELETE.

(** The request object. [sent] is what is on the wire; [body] and [file]
    are the properties the upload middleware sets. *)
Record Req := {
  method : Method;
  url : Js.str;
  sent : Submission;
  body : Body;
  file : option UploadedFile
}.

Inductive ErrorClass := PlainError | TypeError | MulterError.

Record JsError := {
  class : ErrorClass;
  code : option Js.str;
  message : Js.str;
  stack : Js.str
}.

#[warnings="-register-all"]
Inductive json :=
| JBool (b : bool)
| JString (s : Js.str)
| JObject (members : list (string * json)).

Inductive Payload :=
| Json (j : json)
| SentFile (p : Js.str)
| Html (s : Js.str).

Record Response := {
  status : N;
  payload : Payload
}.

Module Mail.

Record Attachment := {
  filename : Js.str;
  path : Js.str;
  contentType : Js.str
}.

Record Options := {
  from : Js.str;
  to : Js.str;
  replyTo : Js.str;
  subject : Js.str;
  html : Js.str;
  attachments : list Attachment
}.

End Mail.

(** Observable effects, in the order they happen. *)
Inductive Event :=
| EMkdir (p : Js.str)
| EWrite (p : Js.str)                (* the upload is stored at [p] *)
| EUnlink (p : Js.str)               (* [p] is removed *)
| EVerify                            (* [transporter.verify()] is called *)
| ESendMail (m : Mail.Options)       (* [transporter.sendMail(m)] is called *)
| ELog (s : Js.str)                  (* [console.log] *)
| ELogError (s : Js.str) (e : JsError)   (* [console.error] *)
| ERespond (r : Response).

Record World := {
  fs : gset (list N);
  trace : list Event
}.

(** What a run reads from outside the program. *)
Record Env := {
  date_now : N;                      (* [Date.now()] *)
  random_1e9 : N;                    (* [Math.round(Math.random() * 1E9)] *)
  locale_now : Js.str;               (* [new Date().toLocaleString('pt-BR')] *)
  iso_now : Js.str;                  (* [new Date().toISOString()] *)
  FROM_EMAIL : option Js.str;
  TO_EMAIL : option Js.str;
  verify_result : option JsError;    (* [None]: the transport answers *)
  sendMail_result : option JsError   (* [None]: the message is accepted *)
}.

(** ** Effects: state and exceptions *)

Inductive Completion (A : Type) :=
| Normal (a : A)
| Throw (e : JsError).
Arguments Normal {A} a.
Arguments Throw {A} e.

Definition M (A : Type) : Type := World -> Completion A * World.

#[global] Instance M_ret : MRet M := fun A a w => (Normal a, w).

#[global] Instance M_bind : MBind M := fun A B f m w =>
  match m w with
  | (Normal a, w') => f a w'
  | (Throw e, w') => (Throw e, w')
  end.

Definition throw {A} (e : JsError) : M A := fun w => (Throw e, w).

Definition try_catch {A} (body : M A) (handler : JsError -> M A) : M A :=
  fun w =>
    match body w with
    | (Normal a, w') => (Normal a, w')
    | (Throw e, w') => handler e w'
    end.

(** The world after one more event. *)
Definition log (e : Event) (w : World) : World :=
  {| fs := fs w; trace := trace w ++ [e] |}.

Definition emit (e : Event) : M unit := fun w => (Normal tt, log e w).

Definition existsSync (p : Js.str) : M bool := fun w =>
  (Normal (bool_decide (p ∈ fs w)), w).

Definition ENOENT (p : Js.str) : JsError :=
  {| class := PlainError;
     code := Some (Js.lit "ENOENT");
     message := Js.lit "ENOENT: no such file or directory, unlink '" ++ p ++ Js.lit "'";
     stack := [] |}.

Definition unlinkSync (p : Js.str) : M unit := fun w =>
  if bool_decide (p ∈ fs w)
  then (Normal tt, {| fs := fs w ∖ {[ p ]}; trace := trace w ++ [EUnlink p] |})
  else (Throw (ENOENT p), w).

Definition mkdirSync (p : Js.str) : M unit := fun w =>
  (Normal tt, {| fs := {[ p ]} ∪ fs w; trace := trace w ++ [EMkdir p] |}).

Definition writeFile (p : Js.str) : M unit := fun w =>
  (Normal tt, {| fs := {[ p ]} ∪ fs w; trace := trace w ++ [EWrite p] |}).

Definition console_log (s : Js.str) : M unit := emit (ELog s).

Definition console_error (s : Js.str) (e : JsError) : M unit := emit (ELogError s e).

(** [res.status(s).json(j)] *)
Definition respond (s : N) (j : json) : M unit :=
  emit (ERespond {| status := s; payload := Json j |}).

(** [{ success: b, message: m }] *)
Definition envelope (b : bool) (m : Js.str) : json :=
  JObject [("success"%string, JBool b); ("message"%string, JString m)].

Definition json_response (s : N) (b : bool) (m : Js.str) : Response :=
  {| status := s; payload := Json (envelope b m) |}.

(** The transport, answered by the environment. *)
Definition verify (env : Env) : M unit :=
  emit EVerify ;;
  match verify_result env with
  | None => mret tt
  | Some e => throw e
  end.

Definition sendMail (env : Env) (m : Mail.Options) : M unit :=
  emit (ESendMail m) ;;
  match sendMail_result env with
  | None => mret tt
  | Some e => throw e
  end.

(** ** Upload configuration (multer) *)

Definition uploadDir : Js.str := Js.lit "./uploads".

(** [storage.destination]: create the upload directory when missing. *)
Definition storage_destination : M Js.str :=
  present ← existsSync uploadDir;
  (if negb (present : bool) then mkdirSync uploadDir else mret tt) ;;
  mret uploadDir.

(** [storage.filename]: [Date.now() + '-' + random + '_' + originalname]. *)
Definition storage_filename (env : Env) (part : FilePart) : Js.str :=
  let uniqueSuffix :=
    Js.of_number (date_now env) ++ Js.lit "-" ++ Js.of_number (random_1e9 env) in
  uniqueSuffix ++ Js.lit "_" ++ part_originalname part.

Definition allowedMimes : list Js.str :=
  [ Js.lit "application/pdf";
    Js.lit "application/msword";
    Js.lit "application/vnd.openxmlformats-officedocument.wordprocessingml.document" ].

Definition fileFilter_error : JsError :=
  {| class := PlainError;
     code := None;
     message := Js.lit "Apenas arquivos PDF e DOC/DOCX são permitidos";
     stack := [] |}.

(** [fileFilter]: [inr true] accepts the file, [inl e] is [cb(e, false)]. *)
Definition fileFilter (part : FilePart) : JsError + bool :=
  if bool_decide (part_mimetype part ∈ allowedMimes)
  then inr true
  else inl fileFilter_error.

(** [limits.fileSize] *)
Definition fileSize : N := 5 * 1024 * 1024.

Definition LIMIT_FILE_SIZE : JsError :=
  {| class := MulterError;
     code := Some (Js.lit "LIMIT_FILE_SIZE");
     message := Js.lit "File too large";
     stack := [] |}.

(** [path.join(destination, filename)]; the file name has no separator,
    the multipart parser keeps the base name only. *)
Definition path_join_uploads (fname : Js.str) : Js.str :=
  Js.lit "uploads/" ++ fname.

(** How a middleware hands over: [next()], [next(err)], or it ended the
    request itself. *)
Inductive Step :=
| SNext (req : Req)
| SError (e : JsError)
| SEnd.

Definition Middleware : Type := Env -> Req -> World -> Step * World.
Definition ErrorMiddleware : Type := Env -> JsError -> Req -> World -> Step * World.

Definition with_body (req : Req) (b : Body) : Req :=
  {| method := method req; url := url req; sent := sent req;
     body := b; file := file req |}.

Definition with_file (req : Req) (f : UploadedFile) : Req :=
  {| method := method req; url := url req; sent := sent req;
     body := body req; file := Some f |}.

(** [upload.single('resume')]. multer sets [req.body] from the text
    fields; for the file part it asks [fileFilter] first, then streams the
    part to the disk storage. A part that grows past [limits.fileSize]
    aborts the upload: the partial file is removed again and the error
    goes to [next]. *)
Definition upload_single : Middleware := fun env req w =>
  let req := with_body req (fields (sent req)) in
  match resume (sent req) with
  | None => (SNext req, w)
  | Some part =>
      match fileFilter part with
      | inl e => (SError e, w)
      | inr false => (SNext req, w)
      | inr true =>
          let store :=
            dir ← storage_destination;
            let fname := storage_filename env part in
            let p := path_join_uploads fname in
            writeFile p ;;
            if fileSize <? part_size part
            then unlinkSync p ;; throw LIMIT_FILE_SIZE
            else mret {| originalname := part_originalname part;
                         mimetype := part_mimetype part;
                         destination := dir;
                         filename := fname;
                         path := p;
                         size := part_size part |} in
          match store w with
          | (Normal f, w') => (SNext (with_file req f), w')
          | (Throw e, w') => (SError e, w')
          end
      end
  end.

(** ** The route handler of [POST /enviar-candidatura] *)

(** [/^[^\s@]+@[^\s@]+\.[^\s@]+$/] *)
Definition emailRegex : Regex.t :=
  let not_space_at := Regex.NotIn (fun c => Js.is_space c || (c =? 64)) in
  [ (not_space_at, Regex.OneOrMore);
    (Regex.Lit 64, Regex.Once);
    (not_space_at, Regex.OneOrMore);
    (Regex.Lit 46, Regex.Once);
    (not_space_at, Regex.OneOrMore) ].

(** [if (resumeFile && fs.existsSync(resumeFile.path)) fs.unlinkSync(...)] *)
Definition cleanup (resumeFile : option UploadedFile) : M unit :=
  match resumeFile with
  | None => mret tt
  | Some f =>
      present ← existsSync (path f);
      if (present : bool) then unlinkSync (path f) else mret tt
  end.

Definition null_property (prop : Js.str) : JsError :=
  {| class := TypeError;
     code := None;
     message := Js.lit "Cannot read properties of null (reading '" ++ prop ++ Js.lit "')";
     stack := [] |}.

(** The [html] template literal of [mailOptions]. *)
Definition mail_html (env : Env) (name email position : Js.str) : Js.str :=
  let q := Js.dquote in
  let nl := Js.newline in
  nl ++
  Js.lit "                <div style=" ++ q ++ Js.lit "font-family: Arial, sans-serif; max-width: 600px; margin: 0 auto;" ++ q ++ Js.lit ">" ++ nl ++
  Js.lit "                    <h2 style=" ++ q ++ Js.lit "color: #323232ff;" ++ q ++ Js.lit ">Nova Candidatura Recebida</h2>" ++ nl ++
  Js.lit "                    <div style=" ++ q ++ Js.lit "background: #f5f5f5; padding: 20px; border-radius: 5px;" ++ q ++ Js.lit ">" ++ nl ++
  Js.lit "                        <p><strong>Nome:</strong> " ++ name ++ Js.lit "</p>" ++ nl ++
  Js.lit "                        <p><strong>E-mail:</strong> " ++ email ++ Js.lit "</p>" ++ nl ++
  Js.lit "                        <p><strong>Cargo desejado:</strong> " ++ position ++ Js.lit "</p>" ++ nl ++
  Js.lit "                        <p><strong>Data do envio:</strong> " ++ locale_now env ++ Js.lit "</p>" ++ nl ++
  Js.lit "                    </div>" ++ nl ++
  Js.lit "                    <p style=" ++ q ++ Js.lit "margin-top: 20px; color: #666;" ++ q ++ Js.lit ">" ++ nl ++
  Js.lit "                        Este e-mail foi enviado automaticamente através do sistema de candidaturas." ++ nl ++
  Js.lit "                    </p>" ++ nl ++
  Js.lit "                </div>" ++ nl ++
  Js.lit "            ".

Definition mailOptions (env : Env) (name email position : Js.str)
    (resumeFile : UploadedFile) : Mail.Options :=
  {| Mail.from := Js.or_default (FROM_EMAIL env) (Js.lit "contato@pereirawesolutions.com.br");
     Mail.to := Js.or_default (TO_EMAIL env) (Js.lit "rh@pereirawesolutions.com.br");
     Mail.replyTo := email;
     Mail.subject := Js.lit "Nova Candidatura - " ++ position;
     Mail.html := mail_html env name email position;
     Mail.attachments :=
       [ {| Mail.filename := originalname resumeFile;
            Mail.path := path resumeFile;
            Mail.contentType := mimetype resumeFile |} ] |}.

(** The message the [catch] block picks from [error.code]. *)
Definition errorMessage (error : JsError) : Js.str :=
  if bool_decide (code error = Some (Js.lit "ECONNECTION"))
     || bool_decide (code error = Some (Js.lit "EAUTH"))
  then Js.lit "Erro de configuração do servidor de e-mail"
  else if bool_decide (code error = Some (Js.lit "ENOENT"))
  then Js.lit "Erro ao processar o arquivo anexo"
  else Js.lit "Erro interno do servidor".

(** The [try] block. [req.body] is an object on every multipart request,
    so the destructuring cannot throw and [resumeFile] holds [req.file]
    in both blocks. *)
Definition handler_try (env : Env) (req : Req) : M unit :=
  let name := name (body req) in
  let email := email (body req) in
  let position := position (body req) in
  let resumeFile := file req in
  if negb (Js.truthy name) || negb (Js.truthy email)
     || negb (Js.truthy position) || negb (bool_decide (is_Some resumeFile))
  then
    cleanup resumeFile ;;
    respond 400 (envelope false (Js.lit "Todos os campos são obrigatórios"))
  else
    let name := Js.to_string name in
    let email := Js.to_string email in
    let position := Js.to_string position in
    if negb (Regex.test emailRegex email)
    then
      cleanup resumeFile ;;
      respond 400 (envelope false (Js.lit "E-mail inválido"))
    else
      (* [createTransport] only builds the transporter object *)
      verify env ;;
      match resumeFile with
      | None => throw (null_property (Js.lit "originalname"))
      | Some f =>
          sendMail env (mailOptions env name email position f) ;;
          present ← existsSync (path f);
          (if (present : bool) then unlinkSync (path f) else mret tt) ;;
          console_log (Js.lit "Candidatura enviada: " ++ name ++ Js.lit " - " ++ position) ;;
          respond 200 (envelope true
            (Js.lit "Candidatura enviada com sucesso! Entraremos em contato em breve."))
      end.

(** The [catch] block. *)
Definition handler_catch (req : Req) (error : JsError) : M unit :=
  let resumeFile := file req in
  console_error (Js.lit "Erro ao processar candidatura:") error ;;
  cleanup resumeFile ;;
  respond 500 (envelope false (errorMessage error)).

(** [async (req, res) => { try { ... } catch (error) { ... } }] *)
Definition handler_body (env : Env) (req : Req) : M unit :=
  try_catch (handler_try env req) (handler_catch req).

(** As a middleware it never calls [next]. *)
Definition handler : Middleware := fun env req w =>
  (SEnd, snd (handler_body env req w)).

(** ** The Express application *)

(** A layer of the router stack: [app.use(fn)] with a plain or an
    error-handling (four-argument) function, or a route. *)
Inductive Layer :=
| Use (fn : Middleware)
| UseError (fn : ErrorMiddleware)
| Route (m : Method) (p : Js.str) (handlers : list Middleware).

(** The handlers of a matched route, in order. An error leaves the route. *)
Fixpoint run_route (handlers : list Middleware) (env : Env) (req : Req)
    (w : World) : Step * World :=
  match handlers with
  | [] => (SNext req, w)
  | h :: rest =>
      match h env req w with
      | (SNext req', w') => run_route rest env req' w'
      | (SError e, w') => (SError e, w')
      | (SEnd, w') => (SEnd, w')
      end
  end.

Definition Method_eqb (a b : Method) : bool :=
  match a, b with
  | GET, GET | HEAD, HEAD | POST, POST | PUT, PUT | DELETE, DELETE => true
  | _, _ => false
  end.

(** [app.get] also answers [HEAD]. *)
Definition handles_method (m : Method) (reqm : Method) : bool :=
  Method_eqb m reqm || (Method_eqb m GET && Method_eqb reqm HEAD).

(** When no layer is left: the framework's own 404 or 500 page (its
    text abridged). The stack of [app] ends in two catch-all layers, so no
    request gets here. *)
Definition finalhandler (err : option JsError) (req : Req) (w : World) : World :=
  let r :=
    match err with
    | None => {| status := 404; payload := Html (Js.lit "Cannot " ++ url req) |}
    | Some _ => {| status := 500; payload := Html (Js.lit "Internal Server Error") |}
    end in
  {| fs := fs w; trace := trace w ++ [ERespond r] |}.

(** The router walks the stack once, front to back. With an error
    pending it skips routes and plain middleware and stops at the next
    error-handling middleware further down the stack; without one it
    skips the error-handling middleware. *)
Fixpoint router (stack : list Layer) (env : Env) (err : option JsError)
    (req : Req) (w : World) : World :=
  let continue (rest : list Layer) (r : Step * World) : World :=
    match r with
    | (SNext req', w') => router rest env None req' w'
    | (SError e, w') => router rest env (Some e) req w'
    | (SEnd, w') => w'
    end in
  match stack with
  | [] => finalhandler err req w
  | Use fn :: rest =>
      match err with
      | Some _ => router rest env err req w
      | None => continue rest (fn env req w)
      end
  | UseError fn :: rest =>
      match err with
      | Some e => continue rest (fn env e req w)
      | None => router rest env None req w
      end
  | Route m p handlers :: rest =>
      match err with
      | Some _ => router rest env err req w
      | None =>
          if bool_decide (url req = p) && handles_method m (method req)
          then continue rest (run_route handlers env req w)
          else router rest env None req w
      end
  end.

Definition respond_step (s : N) (j : json) (w : World) : Step * World :=
  (SEnd, snd (respond s j w)).

(** [express.json()] and [express.urlencoded()] leave a multipart request
    alone. *)
Definition express_json : Middleware := fun env req w => (SNext req, w).
Definition express_urlencoded : Middleware := fun env req w => (SNext req, w).

(** [express.static(root)] answers [GET] and [HEAD] for files under
    [root] and passes everything else on. *)
Definition express_static (root : Js.str) : Middleware := fun env req w =>
  let p := root ++ url req in
  if (Method_eqb (method req) GET || Method_eqb (method req) HEAD)
     && bool_decide (p ∈ fs w)
  then (SEnd, {| fs := fs w;
                 trace := trace w ++ [ERespond {| status := 200; payload := SentFile p |}] |})
  else (SNext req, w).

(** The middleware for multer errors (registered before the routes). *)
Definition multer_error_middleware : ErrorMiddleware := fun env error req w =>
  match class error with
  | MulterError =>
      if bool_decide (code error = Some (Js.lit "LIMIT_FILE_SIZE"))
      then respond_step 400
             (envelope false (Js.lit "Arquivo muito grande. Tamanho máximo permitido: 5MB")) w
      else (SError error, w)
  | _ => (SError error, w)
  end.

Definition index_page : Middleware := fun env req w =>
  (SEnd, {| fs := fs w;
            trace := trace w ++
              [ERespond {| status := 200;
                           payload := SentFile (Js.lit "public/index.html") |}] |}).

Definition health : Middleware := fun env req w =>
  respond_step 200
    (JObject [("status"%string, JString (Js.lit "OK"));
              ("timestamp"%string, JString (iso_now env))]) w.

Definition not_found : Middleware := fun env req w =>
  respond_step 404 (envelope false (Js.lit "Rota não encontrada")) w.

Definition global_error_handler : ErrorMiddleware := fun env error req w =>
  respond_step 500 (envelope false (Js.lit "Erro interno do servidor"))
    (snd (console_error (Js.lit "Erro não tratado:") error w)).

(** The stack in registration order. *)
Definition app : list Layer :=
  [ Use express_json;
    Use express_urlencoded;
    Use (express_static (Js.lit "public"));
    UseError multer_error_middleware;
    Route GET (Js.lit "/") [index_page];
    Route POST (Js.lit "/enviar-candidatura") [upload_single; handler];
    Route GET (Js.lit "/health") [health];
    Use not_found;
    UseError global_error_handler ].

(** A multipart form post to the intake route. *)
Definition post_candidatura (sub : Submission) : Req :=
  {| method := POST;
     url := Js.lit "/enviar-candidatura";
     sent := sub;
     body := {| name := None; email := None; position := None |};
     file := None |}.

Definition serve (env : Env) (req : Req) (w : World) : World :=
  router app env None req w.

(** ** Reading a trace *)

Definition responses (t : list Event) : list Response :=
  omap (fun e => match e with ERespond r => Some r | _ => None end) t.

Definition mails (t : list Event) : list Mail.Options :=
  omap (fun e => match e with ESendMail m => Some m | _ => None end) t.

Definition is_unlink (p : Js.str) (e : Event) : bool :=
  match e with
  | EUnlink q => bool_decide (q = p)
  | _ => false
  end.

(** How many times [p] was removed. *)
Definition unlinks (p : Js.str) (t : list Event) : nat :=
  length (List.filter (is_unlink p) t).

Definition writes (t : list Event) : list Js.str :=
  omap (fun e => match e with EWrite p => Some p | _ => None end) t.

(** A request on a disk holding [disk], traced from the start. *)
Definition fresh (disk : gset (list N)) : World := {| fs := disk; trace := [] |}.

(** The world the route handler leaves. *)
Definition handle (env : Env) (req : Req) (disk : gset (list N)) : World :=
  snd (handler_body env req (fresh disk)).

(** The error the transport raises, if any: [verify] is asked first. *)
Definition dispatch_error (env : Env) : option JsError :=
  match verify_result env with
  | Some e => Some e
  | None => sendMail_result env
  end.

(** Where the disk storage puts the [part] of a request run in [env]. *)
Definition stored_path (env : Env) (part : FilePart) : Js.str :=
  path_join_uploads (storage_filename env part).

Definition stored_file (env : Env) (part : FilePart) : UploadedFile :=
  {| originalname := part_originalname part;
     mimetype := part_mimetype part;
     destination := uploadDir;
     filename := storage_filename env part;
     path := stored_path env part;
     size := part_size part |}.

(** The world once the upload directory is there. *)
Definition with_uploadDir (w : World) : World :=
  if bool_decide (uploadDir ∈ fs w) then w
  else {| fs := {[ uploadDir ]} ∪ fs w; trace := trace w ++ [EMkdir uploadDir] |}.

(** The world once the part is written. *)
Definition stored (env : Env) (part : FilePart) (w : World) : World :=
  {| fs := {[ stored_path env part ]} ∪ fs (with_uploadDir w);
     trace := trace (with_uploadDir w) ++ [EWrite (stored_path env part)] |}.

(** The request as the upload middleware passes it on. *)
Definition uploaded (env : Env) (sub : Submission) : Req :=
  {| method := POST;
     url := Js.lit "/enviar-candidatura";
     sent := sub;
     body := fields sub;
     file := stored_file env <$> resume sub |}.

(** ** Sample requests *)

Definition env_ok : Env :=
  {| date_now := 1700000000123;
     random_1e9 := 123456789;
     locale_now := Js.lit "14/11/2023, 19:13:20";
     iso_now := Js.lit "2023-11-14T22:13:20.123Z";
     FROM_EMAIL := None;
     TO_EMAIL := None;
     verify_result := None;
     sendMail_result := None |}.

Definition ECONNECTION : JsError :=
  {| class := PlainError;
     code := Some (Js.lit "ECONNECTION");
     message := Js.lit "connect ECONNREFUSED 127.0.0.1:587";
     stack := Js.lit "Error: connect ECONNREFUSED 127.0.0.1:587 at TCPConnectWrap.afterConnect" |}.

(** The same instant, with a transport that cannot be reached. *)
Definition env_down : Env :=
  {| date_now := 1700000000123;
     random_1e9 := 123456789;
     locale_now := Js.lit "14/11/2023, 19:13:20";
     iso_now := Js.lit "2023-11-14T22:13:20.123Z";
     FROM_EMAIL := None;
     TO_EMAIL := None;
     verify_result := Some ECONNECTION;
     sendMail_result := None |}.

(** One millisecond later, another draw. *)
Definition env_later : Env :=
  {| date_now := 1700000000124;
     random_1e9 := 987654321;
     locale_now := Js.lit "14/11/2023, 19:13:20";
     iso_now := Js.lit "2023-11-14T22:13:20.124Z";
     FROM_EMAIL := None;
     TO_EMAIL := None;
     verify_result := None;
     sendMail_result := None |}.

Definition ana : Body :=
  {| name := Some (Js.lit "Ana Souza");
     email := Some (Js.lit "ana.souza@example.com");
     position := Some (Js.lit "Desenvolvedora") |}.

Definition cv_pdf : FilePart :=
  {| part_originalname := Js.lit "cv.pdf";
     part_mimetype := Js.lit "application/pdf";
     part_size := 120000 |}.

(** Six megabytes of PDF. *)
Definition big_pdf : FilePart :=
  {| part_originalname := Js.lit "portfolio.pdf";
     part_mimetype := Js.lit "application/pdf";
     part_size := 6 * 1024 * 1024 |}.

Definition photo_png : FilePart :=
  {| part_originalname := Js.lit "foto.png";
     part_mimetype := Js.lit "image/png";
     part_size := 120000 |}.

Definition submission (part : FilePart) : Submission :=
  {| fields := ana; resume := Some part |}.

(** The file of [submission cv_pdf] as stored under [env_ok], and the
    request the handler then sees. *)
Definition cv_stored : UploadedFile := stored_file env_ok cv_pdf.

Definition cv_req : Req := uploaded env_ok (submission cv_pdf).



(** The first test of the handler: some field is falsy. *)
Definition incomplete (req : Req) : bool :=
  negb (Js.truthy (name (body req))) || negb (Js.truthy (email (body req)))
  || negb (Js.truthy (position (body req)))
  || negb (bool_decide (is_Some (file req))).

(** The world after the guarded removal of [p]. *)
Definition removed (p : Js.str) (w : World) : World :=
  if bool_decide (p ∈ fs w)
  then {| fs := fs w ∖ {[ p ]}; trace := trace w ++ [EUnlink p] |}
  else w.

Definition cleaned (resumeFile : option UploadedFile) (w : World) : World :=
  match resumeFile with
  | None => w
  | Some f => removed (path f) w
  end.

(** The exits of the handler: a field is missing, the email is
    malformed, [verify] throws, [sendMail] throws, the mail is sent. *)
Inductive Exit := ExitIncomplete | ExitBadEmail | ExitVerify | ExitSend | ExitSent.

(** [error.code] is one of the two codes of a transport that cannot be
    reached or refuses the credentials. *)
Definition transport_code (e : JsError) : Prop :=
  code e = Some (Js.lit "ECONNECTION") \/ code e = Some (Js.lit "EAUTH").

(** ** The email shape, in the specification's words

    [local@domain.tld]: three non-empty parts free of white space and of
    [@], joined by [@] and by a dot. *)

Definition plain (c : N) : Prop := Js.is_space c = false /\ c <> 64.

Definition email_shape (s : Js.str) : Prop :=
  exists loc domain tld,
    s = loc ++ 64 :: domain ++ 46 :: tld
    /\ loc <> [] /\ domain <> [] /\ tld <> []
    /\ Forall plain loc /\ Forall plain domain /\ Forall plain tld.

(** ** Worlds with a past

    [prepend t w] is [w] with the events of [t] before its own. *)
Definition prepend (t : list Event) (w : World) : World :=
  {| fs := fs w; trace := t ++ trace w |}.

(** ** The page script

    The listeners of the landing page that keep state in the document:
    the mobile menu, the reveal of cards on intersection and the delays
    of the floating elements. An element is read through the inline
    style properties the script writes. *)

Module Page.

(** [classList.toggle(token)]: remove the token when it is there, add it
    at the end otherwise. *)
Definition classList_toggle (token : Js.str) (classList : list Js.str) : list Js.str :=
  if bool_decide (token ∈ classList)
  then filter (fun t => t <> token) classList
  else classList ++ [token].

(** The click listener of [.mobile-menu], on the class list of
    [.nav-links]. *)
Definition mobileMenu_click (navLinks : list Js.str) : list Js.str :=
  classList_toggle (Js.lit "active") navLinks.

Fixpoint clicks (n : nat) (navLinks : list Js.str) : list Js.str :=
  match n with
  | O => navLinks
  | S n' => clicks n' (mobileMenu_click navLinks)
  end.

Record Style := {
  opacity : Js.str;
  transform : Js.str;
  transition : Js.str;
  animationDelay : Js.str
}.

(** What the script does to each [.service-card] and [.portfolio-item]
    before it observes it. *)
Definition prepare (el : Style) : Style :=
  {| opacity := Js.lit "0";
     transform := Js.lit "translateY(30px)";
     transition := Js.lit "opacity 0.6s ease, transform 0.6s ease";
     animationDelay := animationDelay el |}.

(** An [IntersectionObserverEntry]; the target is the position of the
    element among the observed ones. *)
Record Entry := {
  target : nat;
  isIntersecting : bool
}.

Definition show (el : Style) : Style :=
  {| opacity := Js.lit "1";
     transform := Js.lit "translateY(0)";
     transition := transition el;
     animationDelay := animationDelay el |}.

(** The body of [entries.forEach] in the observer callback. *)
Definition on_entry (els : list Style) (entry : Entry) : list Style :=
  if isIntersecting entry then alter show (target entry) els else els.

Definition observer_callback (entries : list Entry) (els : list Style) : list Style :=
  foldl on_entry els entries.

(** [`${index * 2}s`] *)
Definition delay (index : nat) : Js.str :=
  Js.of_number (N.of_nat index * 2) ++ Js.lit "s".

(** [floatingElements.forEach((element, index) => ...)] *)
Definition set_delays (els : list Style) : list Style :=
  imap (fun index el =>
          {| opacity := opacity el;
             transform := transform el;
             transition := transition el;
             animationDelay := delay index |}) els.

End Page.


(** ** More sample requests *)

Definition EENVELOPE : JsError :=
  {| class := PlainError;
     code := Some (Js.lit "EENVELOPE");
     message := Js.lit "No recipients defined";
     stack := [] |}.

(** The transport verifies and then refuses the message. *)
Definition env_refused : Env :=
  {| date_now := 1700000000123;
     random_1e9 := 123456789;
     locale_now := Js.lit "14/11/2023, 19:13:20";
     iso_now := Js.lit "2023-11-14T22:13:20.123Z";
     FROM_EMAIL := None;
     TO_EMAIL := None;
     verify_result := None;
     sendMail_result := Some EENVELOPE |}.

Definition request (m : Method) (u : Js.str) : Req :=
  {| method := m;
     url := u;
     sent := {| fields := {| name := None; email := None; position := None |};
                resume := None |};
     body := {| name := None; email := None; position := None |};
     file := None |}.

(** [cv_req] with an empty name. *)
Definition blank_name_req : Req :=
  with_body cv_req
    {| name := Some [];
       email := Some (Js.lit "ana.souza@example.com");
       position := Some (Js.lit "Desenvolvedora") |}.

(** The form of [ana] with an email that has no dot after the [@]. *)
Definition dotless_submission : Submission :=
  {| fields := {| name := Some (Js.lit "Ana Souza");
                  email := Some (Js.lit "ana.souza@example");
                  position := Some (Js.lit "Desenvolvedora") |};
     resume := Some cv_pdf |}.

Definition card : Page.Style :=
  {| Page.opacity := [];
     Page.transform := [];
     Page.transition := [];
     Page.animationDelay := [] |}.


(** * Properties *)

(** Literals are compared by evaluation only. *)
#[local] Opaque Js.lit.

(** ** Strings and numbers *)

Lemma digits_all (d : Decimal.uint) : Forall (fun c => Js.is_digit c = true) (Js.digits d).
Proof. induction d; simpl; constructor; auto. Qed.

Lemma digits_inj (d d' : Decimal.uint) : Js.digits d = Js.digits d' -> d = d'.
Proof.
  revert d'; induction d; intros d' H; destruct d'; simpl in H;
    try discriminate; try reflexivity;
    injection H as H; f_equal; auto.
Qed.

Lemma of_number_inj (a b : N) : Js.of_number a = Js.of_number b -> a = b.
Proof.
  unfold Js.of_number. intros H.
  apply DecimalN.Unsigned.to_uint_inj, digits_inj, H.
Qed.

(** A run of digits followed by a separator that is not a digit can be
    read back in one way only. *)
Lemma digits_sep_inj (sep : N) (u u' x x' : Js.str) :
  Js.is_digit sep = false ->
  Forall (fun c => Js.is_digit c = true) u ->
  Forall (fun c => Js.is_digit c = true) u' ->
  u ++ sep :: x = u' ++ sep :: x' ->
  u = u' /\ x = x'.
Proof.
  intros Hsep Hu. revert u'.
  induction Hu as [|c u Hc Hu IH]; intros u' Hu' H.
  - destruct Hu' as [|c' u' Hc' Hu']; simpl in H.
    + injection H as ->. auto.
    + injection H as E _. subst c'. congruence.
  - destruct Hu' as [|c' u' Hc' Hu']; simpl in H.
    + injection H as E _. subst c. congruence.
    + injection H as -> H. destruct (IH _ Hu' H) as [-> ->]. auto.
Qed.

Lemma storage_filename_inj (env env' : Env) (part : FilePart) :
  storage_filename env part = storage_filename env' part ->
  date_now env = date_now env' /\ random_1e9 env = random_1e9 env'.
Proof.
  unfold storage_filename. rewrite <- !app_assoc. intros H.
  apply (digits_sep_inj 45) in H;
    [ | reflexivity | apply digits_all | apply digits_all ].
  destruct H as [Ht H].
  apply (digits_sep_inj 95) in H;
    [ | reflexivity | apply digits_all | apply digits_all ].
  destruct H as [Hr _].
  split; apply of_number_inj; assumption.
Qed.

(** ** The regular expression *)

Lemma test_nil (s : Js.str) : Regex.test [] s = true <-> s = [].
Proof. destruct s; simpl; split; congruence. Qed.

Lemma test_once (a : Regex.atom) (r : Regex.t) (s : Js.str) :
  Regex.test ((a, Regex.Once) :: r) s = true <->
  exists c s', s = c :: s' /\ Regex.accepts a c = true /\ Regex.test r s' = true.
Proof.
  destruct s as [|c s']; simpl.
  - split; [discriminate | intros (c & s' & H & _); discriminate].
  - rewrite andb_true_iff. split.
    + intros [Ha Hr]. eauto.
    + intros (c0 & s0 & H & Ha & Hr). injection H as -> ->. auto.
Qed.

Lemma test_more (a : Regex.atom) (r : Regex.t) (s : Js.str) :
  Regex.test ((a, Regex.OneOrMore) :: r) s = true <->
  exists u v, s = u ++ v /\ u <> []
              /\ Forall (fun c => Regex.accepts a c = true) u
              /\ Regex.test r v = true.
Proof.
  induction s as [|c s IH].
  - simpl. split; [discriminate|].
    intros (u & v & H & Hu & _). destruct u; [congruence | discriminate].
  - change (Regex.test ((a, Regex.OneOrMore) :: r) (c :: s))
      with (Regex.accepts a c
            && (Regex.test ((a, Regex.OneOrMore) :: r) s || Regex.test r s)).
    rewrite andb_true_iff, orb_true_iff, IH. split.
    + intros [Hc [(u & v & -> & Hu & Hall & Hr) | Hr]].
      * exists (c :: u), v. repeat split; auto; discriminate.
      * exists [c], s. repeat split; auto; discriminate.
    + intros (u & v & H & Hu & Hall & Hr).
      destruct u as [|c0 u]; [congruence|].
      injection H as -> ->. inversion Hall as [|? ? Hc Hall']; subst.
      split; [assumption|].
      destruct u as [|c1 u]; [right; assumption|].
      left. exists (c1 :: u), v. repeat split; auto; discriminate.
Qed.

Lemma accepts_plain (c : N) :
  Regex.accepts (Regex.NotIn (fun c => Js.is_space c || (c =? 64))) c = true
  <-> plain c.
Proof.
  unfold plain; simpl. rewrite negb_true_iff, orb_false_iff, N.eqb_neq. tauto.
Qed.

Lemma Forall_accepts_plain (u : Js.str) :
  Forall (fun c =>
    Regex.accepts (Regex.NotIn (fun c => Js.is_space c || (c =? 64))) c = true) u
  <-> Forall plain u.
Proof.
  split; intros H; (eapply Forall_impl; [exact H|]); intros c; apply accepts_plain.
Qed.

(** The pattern of the source accepts exactly the strings of the shape
    the specification describes. *)
Lemma emailRegex_shape (s : Js.str) :
  Regex.test emailRegex s = true <-> email_shape s.
Proof.
  unfold emailRegex, email_shape. rewrite test_more. split.
  - intros (loc & v & -> & Hloc & Floc & H).
    apply test_once in H as (c & v' & -> & Hc & H).
    apply N.eqb_eq in Hc as ->.
    apply test_more in H as (dom & v & -> & Hdom & Fdom & H).
    apply test_once in H as (c & v' & -> & Hc & H).
    apply N.eqb_eq in Hc as ->.
    apply test_more in H as (tld & v & -> & Htld & Ftld & H).
    apply test_nil in H as ->. rewrite app_nil_r.
    exists loc, dom, tld. rewrite <- !Forall_accepts_plain. auto 10.
  - intros (loc & dom & tld & -> & Hloc & Hdom & Htld & Floc & Fdom & Ftld).
    exists loc, (64 :: dom ++ 46 :: tld).
    rewrite Forall_accepts_plain. repeat split; auto.
    apply test_once. exists 64, (dom ++ 46 :: tld). repeat split; auto.
    apply test_more. exists dom, (46 :: tld).
    rewrite Forall_accepts_plain. repeat split; auto.
    apply test_once. exists 46, tld. repeat split; auto.
    apply test_more. exists tld, [].
    rewrite Forall_accepts_plain, app_nil_r. repeat split; auto.
Qed.

(** ** The handler, path by path *)

Lemma cleanup_run (resumeFile : option UploadedFile) (w : World) :
  cleanup resumeFile w = (Normal tt, cleaned resumeFile w).
Proof.
  destruct resumeFile as [f|]; [|reflexivity].
  unfold cleanup, cleaned, removed, mbind, M_bind, existsSync, unlinkSync.
  destruct (bool_decide (path f ∈ fs w)) eqn:E; [rewrite E|]; reflexivity.
Qed.

Lemma handler_catch_run (req : Req) (error : JsError) (w : World) :
  handler_catch req error w =
  (Normal tt,
   log (ERespond (json_response 500 false (errorMessage error)))
     (cleaned (file req)
        (log (ELogError (Js.lit "Erro ao processar candidatura:") error) w))).
Proof.
  unfold handler_catch, mbind, M_bind, console_error, emit.
  rewrite cleanup_run. reflexivity.
Qed.

Lemma handler_incomplete (env : Env) (req : Req) (w : World) :
  incomplete req = true ->
  handler_body env req w =
  (Normal tt,
   log (ERespond (json_response 400 false (Js.lit "Todos os campos são obrigatórios")))
     (cleaned (file req) w)).
Proof.
  unfold incomplete. intros H.
  unfold handler_body, try_catch, handler_try. rewrite H.
  unfold mbind, M_bind. rewrite cleanup_run. reflexivity.
Qed.

Lemma handler_bad_email (env : Env) (req : Req) (w : World) :
  incomplete req = false ->
  Regex.test emailRegex (Js.to_string (email (body req))) = false ->
  handler_body env req w =
  (Normal tt,
   log (ERespond (json_response 400 false (Js.lit "E-mail inválido")))
     (cleaned (file req) w)).
Proof.
  unfold incomplete. intros H Hre.
  unfold handler_body, try_catch, handler_try. rewrite H, Hre. cbn [negb].
  unfold mbind, M_bind. rewrite cleanup_run. reflexivity.
Qed.

Lemma handler_verify_fails (env : Env) (req : Req) (w : World) (e : JsError) :
  incomplete req = false ->
  Regex.test emailRegex (Js.to_string (email (body req))) = true ->
  verify_result env = Some e ->
  handler_body env req w =
  (Normal tt,
   log (ERespond (json_response 500 false (errorMessage e)))
     (cleaned (file req)
        (log (ELogError (Js.lit "Erro ao processar candidatura:") e)
           (log EVerify w)))).
Proof.
  unfold incomplete. intros H Hre Hv.
  unfold handler_body, try_catch, handler_try. rewrite H, Hre. cbn [negb].
  unfold verify, mbind, M_bind, emit, throw. rewrite Hv.
  rewrite handler_catch_run. reflexivity.
Qed.

Lemma handler_send_fails (env : Env) (req : Req) (w : World)
    (f : UploadedFile) (e : JsError) :
  incomplete req = false ->
  Regex.test emailRegex (Js.to_string (email (body req))) = true ->
  file req = Some f ->
  verify_result env = None ->
  sendMail_result env = Some e ->
  handler_body env req w =
  (Normal tt,
   log (ERespond (json_response 500 false (errorMessage e)))
     (cleaned (file req)
        (log (ELogError (Js.lit "Erro ao processar candidatura:") e)
           (log (ESendMail
                   (mailOptions env (Js.to_string (name (body req)))
                      (Js.to_string (email (body req)))
                      (Js.to_string (position (body req))) f))
              (log EVerify w))))).
Proof.
  unfold incomplete. intros H Hre Hf Hv Hs.
  unfold handler_body, try_catch, handler_try. rewrite H, Hre, Hf. cbn [negb].
  unfold verify, sendMail, mbind, M_bind, emit, throw, mret, M_ret.
  rewrite Hv, Hs.
  rewrite handler_catch_run, Hf. reflexivity.
Qed.

Lemma handler_sends (env : Env) (req : Req) (w : World) (f : UploadedFile) :
  incomplete req = false ->
  Regex.test emailRegex (Js.to_string (email (body req))) = true ->
  file req = Some f ->
  verify_result env = None ->
  sendMail_result env = None ->
  handler_body env req w =
  (Normal tt,
   log (ERespond (json_response 200 true
          (Js.lit "Candidatura enviada com sucesso! Entraremos em contato em breve.")))
     (log (ELog (Js.lit "Candidatura enviada: " ++ Js.to_string (name (body req))
                 ++ Js.lit " - " ++ Js.to_string (position (body req))))
        (removed (path f)
           (log (ESendMail
                   (mailOptions env (Js.to_string (name (body req)))
                      (Js.to_string (email (body req)))
                      (Js.to_string (position (body req))) f))
              (log EVerify w))))).
Proof.
  unfold incomplete. intros H Hre Hf Hv Hs.
  unfold handler_body, try_catch, handler_try. rewrite H, Hre, Hf. cbn [negb].
  unfold verify, sendMail, console_log, respond, mbind, M_bind, emit, mret, M_ret.
  rewrite Hv, Hs.
  set (w1 := log (ESendMail _) (log EVerify w)).
  unfold existsSync, unlinkSync, removed.
  destruct (bool_decide (path f ∈ fs w1)) eqn:E; [rewrite E|]; reflexivity.
Qed.

(** With every field present the file is there: the [TypeError] branch
    of the embedding is never taken. *)
Lemma complete_has_file (req : Req) :
  incomplete req = false -> exists f, file req = Some f.
Proof.
  unfold incomplete. rewrite !orb_false_iff, !negb_false_iff.
  intros (_ & H). apply bool_decide_eq_true in H as [f Hf]. eauto.
Qed.

(** ** Reading worlds and traces *)

Lemma removed_in (p : Js.str) (w : World) :
  p ∈ fs w ->
  removed p w = {| fs := fs w ∖ {[ p ]}; trace := trace w ++ [EUnlink p] |}.
Proof. intros H. unfold removed. rewrite bool_decide_eq_true_2; [reflexivity|assumption]. Qed.

Lemma removed_out (p : Js.str) (w : World) : p ∉ fs w -> removed p w = w.
Proof. intros H. unfold removed. rewrite bool_decide_eq_false_2; [reflexivity|assumption]. Qed.

Lemma removed_gone (p : Js.str) (w : World) : p ∉ fs (removed p w).
Proof.
  destruct (decide (p ∈ fs w)) as [H|H].
  - rewrite removed_in by assumption. simpl. set_solver.
  - rewrite removed_out; assumption.
Qed.

Lemma unlinks_app (p : Js.str) (t t' : list Event) :
  unlinks p (t ++ t') = (unlinks p t + unlinks p t')%nat.
Proof. unfold unlinks. rewrite List.filter_app, length_app. reflexivity. Qed.

Lemma unlinks_one (p : Js.str) : unlinks p [EUnlink p] = 1%nat.
Proof. unfold unlinks. simpl. rewrite bool_decide_eq_true_2; reflexivity. Qed.

Lemma responses_app (t t' : list Event) :
  responses (t ++ t') = responses t ++ responses t'.
Proof. apply omap_app. Qed.

Lemma mails_app (t t' : list Event) : mails (t ++ t') = mails t ++ mails t'.
Proof. apply omap_app. Qed.

Lemma writes_app (t t' : list Event) : writes (t ++ t') = writes t ++ writes t'.
Proof. apply omap_app. Qed.

(** The two worlds a clean-up can leave when the file is on disk or not. *)
Lemma cleaned_in (f : UploadedFile) (w : World) :
  path f ∈ fs w ->
  cleaned (Some f) w =
  {| fs := fs w ∖ {[ path f ]}; trace := trace w ++ [EUnlink (path f)] |}.
Proof. apply removed_in. Qed.

Lemma cleaned_gone (f : UploadedFile) (w : World) : path f ∉ fs (cleaned (Some f) w).
Proof. apply removed_gone. Qed.

(** The handler's run ends in one of five worlds. *)
Lemma handler_exits (env : Env) (req : Req) (w : World) :
  let name := Js.to_string (name (body req)) in
  let email := Js.to_string (email (body req)) in
  let position := Js.to_string (position (body req)) in
  exists x : Exit,
    match x with
    | ExitIncomplete =>
        incomplete req = true /\
        snd (handler_body env req w) =
        log (ERespond (json_response 400 false (Js.lit "Todos os campos são obrigatórios")))
          (cleaned (file req) w)
    | ExitBadEmail =>
        incomplete req = false /\ Regex.test emailRegex email = false /\
        snd (handler_body env req w) =
        log (ERespond (json_response 400 false (Js.lit "E-mail inválido")))
          (cleaned (file req) w)
    | ExitVerify =>
        incomplete req = false /\ Regex.test emailRegex email = true /\
        exists e, verify_result env = Some e /\
        snd (handler_body env req w) =
        log (ERespond (json_response 500 false (errorMessage e)))
          (cleaned (file req)
             (log (ELogError (Js.lit "Erro ao processar candidatura:") e)
                (log EVerify w)))
    | ExitSend =>
        incomplete req = false /\ Regex.test emailRegex email = true /\
        verify_result env = None /\
        exists e f, sendMail_result env = Some e /\ file req = Some f /\
        snd (handler_body env req w) =
        log (ERespond (json_response 500 false (errorMessage e)))
          (cleaned (file req)
             (log (ELogError (Js.lit "Erro ao processar candidatura:") e)
                (log (ESendMail (mailOptions env name email position f))
                   (log EVerify w))))
    | ExitSent =>
        incomplete req = false /\ Regex.test emailRegex email = true /\
        verify_result env = None /\ sendMail_result env = None /\
        exists f, file req = Some f /\
        snd (handler_body env req w) =
        log (ERespond (json_response 200 true
               (Js.lit "Candidatura enviada com sucesso! Entraremos em contato em breve.")))
          (log (ELog (Js.lit "Candidatura enviada: " ++ name ++ Js.lit " - " ++ position))
             (removed (path f)
                (log (ESendMail (mailOptions env name email position f))
                   (log EVerify w))))
    end.
Proof.
  intros name0 email0 position0. subst name0 email0 position0.
  destruct (incomplete req) eqn:Hi.
  { exists ExitIncomplete. rewrite handler_incomplete by assumption. auto. }
  destruct (Regex.test emailRegex (Js.to_string (email (body req)))) eqn:Hre.
  2:{ exists ExitBadEmail. rewrite handler_bad_email by assumption. auto. }
  destruct (verify_result env) as [e|] eqn:Hv.
  { exists ExitVerify. rewrite (handler_verify_fails _ _ _ e) by assumption. eauto. }
  destruct (complete_has_file req Hi) as [f Hf].
  destruct (sendMail_result env) as [e|] eqn:Hs.
  { exists ExitSend. rewrite (handler_send_fails _ _ _ f e) by assumption.
    eauto 10. }
  exists ExitSent. rewrite (handler_sends _ _ _ f) by assumption. eauto 10.
Qed.

(** ** The temporary file *)

Ltac read_world :=
  unfold log, fresh; cbn [fs trace snd app];
  rewrite ?unlinks_app, ?responses_app, ?mails_app, ?unlinks_one;
  cbn [unlinks responses mails omap List.filter is_unlink length app Nat.add
       list_omap mbind option_bind].

(** C1. When the request reaches the handler with a stored resume file,
    the handler removes that file exactly once, before it sends its one
    response, and the file is gone afterwards: on the missing-field and
    invalid-email exits, on a failing [verify] or [sendMail] with any
    error at all, and after a successful send. *)
Theorem stored_file_removed_exactly_once
    (env : Env) (req : Req) (disk : gset (list N)) (f : UploadedFile) :
  file req = Some f ->
  path f ∈ disk ->
  unlinks (path f) (trace (handle env req disk)) = 1%nat
  /\ (path f ∉ fs (handle env req disk))
  /\ exists before r,
       trace (handle env req disk) = before ++ [ERespond r]
       /\ unlinks (path f) before = 1%nat
       /\ responses before = [].
Proof.
  intros Hf Hin. unfold handle.
  destruct (handler_exits env req (fresh disk)) as [[] H]; cbn zeta in H.
  - destruct H as (_ & ->). rewrite Hf, cleaned_in by exact Hin.
    read_world. split; [reflexivity|]. split; [set_solver|].
    eexists _, _. split; [reflexivity|]. read_world. auto.
  - destruct H as (_ & _ & ->). rewrite Hf, cleaned_in by exact Hin.
    read_world. split; [reflexivity|]. split; [set_solver|].
    eexists _, _. split; [reflexivity|]. read_world. auto.
  - destruct H as (_ & _ & e & _ & ->). rewrite Hf, cleaned_in by exact Hin.
    read_world. split; [reflexivity|]. split; [set_solver|].
    eexists _, _. split; [reflexivity|]. read_world. auto.
  - destruct H as (_ & _ & _ & e & f' & _ & Hf' & ->).
    rewrite Hf, cleaned_in by exact Hin.
    read_world. split; [reflexivity|]. split; [set_solver|].
    eexists _, _. split; [reflexivity|]. read_world. auto.
  - destruct H as (_ & _ & _ & _ & f' & Hf' & ->).
    assert (f' = f) as -> by congruence.
    rewrite removed_in by exact Hin.
    read_world. split; [reflexivity|]. split; [set_solver|].
    eexists _, _. split; [reflexivity|]. read_world. auto.
Qed.

Lemma cleaned_fs_gone (resumeFile : option UploadedFile) (w : World) (f : UploadedFile) :
  resumeFile = Some f -> path f ∉ fs (cleaned resumeFile w).
Proof. intros ->. apply cleaned_gone. Qed.

Lemma cleaned_trace (f : UploadedFile) (w : World) :
  trace (cleaned (Some f) w) =
  trace w ++ (if bool_decide (path f ∈ fs w) then [EUnlink (path f)] else []).
Proof.
  unfold cleaned, removed. destruct (bool_decide (path f ∈ fs w)).
  - reflexivity.
  - rewrite app_nil_r. reflexivity.
Qed.

Lemma responses_cleaned (resumeFile : option UploadedFile) (w : World) :
  responses (trace (cleaned resumeFile w)) = responses (trace w).
Proof.
  destruct resumeFile as [f|]; [|reflexivity].
  rewrite cleaned_trace, responses_app.
  destruct (bool_decide (path f ∈ fs w)); simpl; apply app_nil_r.
Qed.

Lemma mails_cleaned (resumeFile : option UploadedFile) (w : World) :
  mails (trace (cleaned resumeFile w)) = mails (trace w).
Proof.
  destruct resumeFile as [f|]; [|reflexivity].
  rewrite cleaned_trace, mails_app.
  destruct (bool_decide (path f ∈ fs w)); simpl; apply app_nil_r.
Qed.

(** ** Validation *)



(** ** Responses *)

Lemma handler_responses (env : Env) (req : Req) (disk : gset (list N)) :
  exists r, responses (trace (handle env req disk)) = [r]
    /\ (r = json_response 400 false (Js.lit "Todos os campos são obrigatórios")
        \/ r = json_response 400 false (Js.lit "E-mail inválido")
        \/ (exists e, dispatch_error env = Some e
                      /\ r = json_response 500 false (errorMessage e))
        \/ (dispatch_error env = None /\
            r = json_response 200 true
                  (Js.lit "Candidatura enviada com sucesso! Entraremos em contato em breve."))).
Proof.
  unfold handle, dispatch_error.
  destruct (handler_exits env req (fresh disk)) as [[] H]; cbn zeta in H.
  - destruct H as (_ & ->). eexists; split; [|left; reflexivity].
    unfold log; cbn [trace]. rewrite responses_app, responses_cleaned. reflexivity.
  - destruct H as (_ & _ & ->). eexists; split; [|right; left; reflexivity].
    unfold log; cbn [trace]. rewrite responses_app, responses_cleaned. reflexivity.
  - destruct H as (_ & _ & e & Hv & ->).
    eexists; split; [|right; right; left; exists e; rewrite Hv; auto].
    unfold log at 1; cbn [trace]. rewrite responses_app, responses_cleaned. reflexivity.
  - destruct H as (_ & _ & Hv & e & f & Hs & _ & ->).
    eexists; split; [|right; right; left; exists e; rewrite Hv; auto].
    unfold log at 1; cbn [trace]. rewrite responses_app, responses_cleaned. reflexivity.
  - destruct H as (_ & _ & Hv & Hs & f & _ & ->).
    eexists; split; [|right; right; right; rewrite Hv; auto].
    unfold log at 1 2; cbn [trace]. rewrite !responses_app.
    unfold removed. destruct (bool_decide _); reflexivity.
Qed.

Lemma errorMessage_cases (e : JsError) :
  (transport_code e
   /\ errorMessage e = Js.lit "Erro de configuração do servidor de e-mail")
  \/ (~ transport_code e
      /\ (errorMessage e = Js.lit "Erro ao processar o arquivo anexo"
          \/ errorMessage e = Js.lit "Erro interno do servidor")).
Proof.
  unfold errorMessage, transport_code.
  destruct (decide (code e = Some (Js.lit "ECONNECTION"))) as [H1|H1].
  { rewrite (bool_decide_eq_true_2 _ H1). left; auto. }
  rewrite (bool_decide_eq_false_2 _ H1).
  destruct (decide (code e = Some (Js.lit "EAUTH"))) as [H2|H2].
  { rewrite (bool_decide_eq_true_2 _ H2). left; auto. }
  rewrite (bool_decide_eq_false_2 _ H2). cbn [orb].
  right. split; [tauto|].
  destruct (bool_decide (code e = Some (Js.lit "ENOENT")));
    [left | right]; reflexivity.
Qed.

(** C9. An error of the transport on a validated request is answered
    500 with [errorMessage] of it, and every 500 response of the handler
    comes from such an error; [errorMessage] is one of three fixed
    strings, chosen by [error.code] alone, so that the message and the
    stack of the error have no way into the response (the error itself
    goes to [console.error]); and the string for the connection and
    authentication codes differs from the one any other error gets. *)
Theorem dispatch_errors_answer_generic_messages :
  (forall env req disk e,
     incomplete req = false ->
     Regex.test emailRegex (Js.to_string (email (body req))) = true ->
     dispatch_error env = Some e ->
     responses (trace (handle env req disk))
     = [json_response 500 false (errorMessage e)])
  /\ (forall env req disk r,
     r ∈ responses (trace (handle env req disk)) ->
     status r = 500 ->
     exists e, dispatch_error env = Some e
       /\ r = json_response 500 false (errorMessage e)
       /\ ELogError (Js.lit "Erro ao processar candidatura:") e
          ∈ trace (handle env req disk))
  /\ (forall e,
        errorMessage e ∈ [ Js.lit "Erro de configuração do servidor de e-mail";
                           Js.lit "Erro ao processar o arquivo anexo";
                           Js.lit "Erro interno do servidor" ])
  /\ (forall e e', code e = code e' -> errorMessage e = errorMessage e')
  /\ (forall e e',
        transport_code e -> ~ transport_code e' ->
        errorMessage e <> errorMessage e').
Proof.
  split; [|split; [|split; [|split]]].
  - intros env req disk e Hi Hre Hd. unfold handle, dispatch_error in *.
    destruct (handler_exits env req (fresh disk)) as [[] H]; cbn zeta in H.
    + destruct H as (Hi' & _). congruence.
    + destruct H as (_ & Hre' & _). congruence.
    + destruct H as (_ & _ & e' & Hv & ->). rewrite Hv in Hd. injection Hd as ->.
      unfold log at 1; cbn [trace]. rewrite responses_app, responses_cleaned.
      reflexivity.
    + destruct H as (_ & _ & Hv & e' & f & Hs & _ & ->). rewrite Hv, Hs in Hd.
      injection Hd as ->.
      unfold log at 1; cbn [trace]. rewrite responses_app, responses_cleaned.
      reflexivity.
    + destruct H as (_ & _ & Hv & Hs & _). rewrite Hv, Hs in Hd. discriminate.
  - intros env req disk r Hr Hst. unfold handle, dispatch_error in *.
    destruct (handler_exits env req (fresh disk)) as [[] H]; cbn zeta in H.
    + destruct H as (_ & E). rewrite E in Hr. exfalso. revert Hr.
      unfold log; cbn [trace]. rewrite responses_app, responses_cleaned.
      cbn. rewrite list_elem_of_singleton. intros ->. discriminate.
    + destruct H as (_ & _ & E). rewrite E in Hr. exfalso. revert Hr.
      unfold log; cbn [trace]. rewrite responses_app, responses_cleaned.
      cbn. rewrite list_elem_of_singleton. intros ->. discriminate.
    + destruct H as (_ & _ & e & Hv & E). rewrite E in *. clear E.
      exists e. rewrite Hv. revert Hr.
      unfold log at 1 3; cbn [trace]. rewrite responses_app, responses_cleaned.
      cbn. rewrite list_elem_of_singleton. intros ->. repeat split.
      destruct (file req) as [f|]; [rewrite cleaned_trace|]; cbn [cleaned trace log];
        set_solver.
    + destruct H as (_ & _ & Hv & e & f & Hs & Hf & E). rewrite E in *. clear E.
      exists e. rewrite Hv. revert Hr.
      unfold log at 1 3; cbn [trace]. rewrite responses_app, responses_cleaned.
      cbn. rewrite list_elem_of_singleton. intros ->. repeat split; [assumption|].
      rewrite Hf, cleaned_trace; cbn [trace log]. set_solver.
    + destruct H as (_ & _ & Hv & Hs & f & _ & E). rewrite E in Hr. exfalso.
      revert Hr. unfold log at 1 2; cbn [trace]. rewrite !responses_app.
      unfold removed. destruct (bool_decide _); cbn;
        rewrite list_elem_of_singleton; intros ->; discriminate.
  - intros e. destruct (errorMessage_cases e) as [[_ ->] | [_ [-> | ->]]].
    + apply list_elem_of_here.
    + apply list_elem_of_further, list_elem_of_here.
    + do 2 apply list_elem_of_further. apply list_elem_of_here.
  - intros e e' H. unfold errorMessage. rewrite H. reflexivity.
  - intros e e' He He'.
    destruct (errorMessage_cases e) as [[_ ->] | [N _]]; [|contradiction].
    destruct (errorMessage_cases e') as [[Y _] | [_ [-> | ->]]]; [contradiction| |];
      vm_compute; discriminate.
Qed.

(** C10. The handler sends exactly one response; its body is the object
    [{success, message}] with a boolean and a string, and [success] is
    true exactly when the status is 200. *)
Theorem handler_envelope (env : Env) (req : Req) (disk : gset (list N)) :
  exists (s : N) (b : bool) (m : Js.str),
    responses (trace (handle env req disk))
    = [ {| status := s;
           payload := Json (JObject [("success"%string, JBool b);
                                     ("message"%string, JString m)]) |} ]
    /\ (b = true <-> s = 200).
Proof.
  destruct (handler_responses env req disk)
    as (r & -> & [-> | [-> | [(e & _ & ->) | (_ & ->)]]]);
    unfold json_response, envelope; eexists _, _, _;
    (split; [reflexivity | split; intros; [discriminate || reflexivity ..]]).
Qed.

(** ** The upload middleware *)

Lemma storage_destination_run (w : World) :
  storage_destination w = (Normal uploadDir, with_uploadDir w).
Proof.
  unfold storage_destination, with_uploadDir, mbind, M_bind, existsSync, mkdirSync.
  destruct (bool_decide (uploadDir ∈ fs w)); reflexivity.
Qed.

Lemma fileFilter_accepts (part : FilePart) :
  part_mimetype part ∈ allowedMimes -> fileFilter part = inr true.
Proof. intros H. unfold fileFilter. rewrite bool_decide_eq_true_2; [reflexivity|exact H]. Qed.

Lemma fileFilter_rejects (part : FilePart) :
  part_mimetype part ∉ allowedMimes -> fileFilter part = inl fileFilter_error.
Proof. intros H. unfold fileFilter. rewrite bool_decide_eq_false_2; [reflexivity|exact H]. Qed.

Lemma upload_without_file (env : Env) (sub : Submission) (w : World) :
  resume sub = None ->
  upload_single env (post_candidatura sub) w = (SNext (uploaded env sub), w).
Proof.
  intros H. unfold upload_single, uploaded, with_body, post_candidatura.
  cbn [sent method url file body]. rewrite H. reflexivity.
Qed.

Lemma upload_accepts (env : Env) (sub : Submission) (w : World) (part : FilePart) :
  resume sub = Some part ->
  part_mimetype part ∈ allowedMimes ->
  part_size part <= fileSize ->
  upload_single env (post_candidatura sub) w
  = (SNext (uploaded env sub), stored env part w).
Proof.
  intros H Hm Hs. unfold upload_single, uploaded, with_body, with_file, post_candidatura.
  cbn [sent method url file body]. rewrite H, (fileFilter_accepts _ Hm).
  unfold mbind, M_bind. rewrite storage_destination_run.
  unfold writeFile. apply N.ltb_ge in Hs. rewrite Hs. reflexivity.
Qed.

Lemma upload_rejects_type (env : Env) (sub : Submission) (w : World) (part : FilePart) :
  resume sub = Some part ->
  part_mimetype part ∉ allowedMimes ->
  upload_single env (post_candidatura sub) w = (SError fileFilter_error, w).
Proof.
  intros H Hm. unfold upload_single, with_body, post_candidatura.
  cbn [sent method url file body]. rewrite H, (fileFilter_rejects _ Hm). reflexivity.
Qed.

Lemma upload_rejects_size (env : Env) (sub : Submission) (w : World) (part : FilePart) :
  resume sub = Some part ->
  part_mimetype part ∈ allowedMimes ->
  fileSize < part_size part ->
  upload_single env (post_candidatura sub) w
  = (SError LIMIT_FILE_SIZE,
     {| fs := fs (stored env part w) ∖ {[ stored_path env part ]};
        trace := trace (stored env part w) ++ [EUnlink (stored_path env part)] |}).
Proof.
  intros H Hm Hs. unfold upload_single, with_body, post_candidatura.
  cbn [sent method url file body]. rewrite H, (fileFilter_accepts _ Hm).
  unfold mbind, M_bind. rewrite storage_destination_run.
  unfold writeFile. apply N.ltb_lt in Hs. rewrite Hs.
  unfold unlinkSync, throw. cbn [fs].
  rewrite bool_decide_eq_true_2 by set_solver. reflexivity.
Qed.

(** ** The router on a post to the intake route *)

Lemma root_is_not_the_route :
  bool_decide (Js.lit "/enviar-candidatura" = Js.lit "/") = false.
Proof. vm_compute. reflexivity. Qed.

(** A post to the route passes the three body middlewares, skips the
    multer error middleware and the index route, and runs the upload and
    the handler. An error of the upload skips every later route and plain
    middleware and stops at the last layer, the global error handler. *)
Lemma serve_post (env : Env) (sub : Submission) (w : World) :
  serve env (post_candidatura sub) w =
  match upload_single env (post_candidatura sub) w with
  | (SNext req', w') => snd (handler_body env req' w')
  | (SError e, w') =>
      log (ERespond (json_response 500 false (Js.lit "Erro interno do servidor")))
        (log (ELogError (Js.lit "Erro não tratado:") e) w')
  | (SEnd, w') => w'
  end.
Proof.
  unfold serve, app.
  cbn [router express_json express_urlencoded express_static post_candidatura
       method url Method_eqb orb andb handles_method].
  rewrite root_is_not_the_route.
  rewrite bool_decide_eq_true_2 by reflexivity.
  cbn [andb run_route].
  change {| method := POST; url := Js.lit "/enviar-candidatura"; sent := sub;
            body := {| name := None; email := None; position := None |};
            file := None |} with (post_candidatura sub).
  destruct (upload_single env (post_candidatura sub) w) as [[req'|e|] w'];
    reflexivity.
Qed.

(** ** End to end: a post with an accepted upload *)

Lemma with_uploadDir_trace (disk : gset (list N)) :
  trace (with_uploadDir (fresh disk)) = []
  \/ trace (with_uploadDir (fresh disk)) = [EMkdir uploadDir].
Proof.
  unfold with_uploadDir. destruct (bool_decide _); [left|right]; reflexivity.
Qed.

Lemma stored_path_in (env : Env) (part : FilePart) (w : World) :
  stored_path env part ∈ fs (stored env part w).
Proof. unfold stored. cbn [fs]. set_solver. Qed.

Lemma shape_nonempty (e : Js.str) : email_shape e -> e <> [].
Proof.
  intros (l & d & t & -> & Hl & _). destruct l; [congruence|discriminate].
Qed.

Lemma truthy_nonempty (s : Js.str) : s <> [] -> Js.truthy (Some s) = true.
Proof. destruct s; [congruence|reflexivity]. Qed.

Lemma with_uploadDir_quiet (disk : gset (list N)) (p : Js.str) :
  responses (trace (with_uploadDir (fresh disk))) = []
  /\ writes (trace (with_uploadDir (fresh disk))) = []
  /\ mails (trace (with_uploadDir (fresh disk))) = []
  /\ unlinks p (trace (with_uploadDir (fresh disk))) = 0%nat.
Proof. destruct (with_uploadDir_trace disk) as [-> | ->]; auto. Qed.

Ltac read_trace disk p :=
  destruct (with_uploadDir_quiet disk p) as (?Hr & ?Hw & ?Hm & ?Hu);
  cbn [trace fs];
  rewrite ?responses_app, ?writes_app, ?mails_app, ?unlinks_app, ?Hr, ?Hw, ?Hm, ?Hu;
  unfold unlinks;
  cbn [responses writes mails omap list_omap List.filter is_unlink length app
       mbind option_bind Nat.add];
  rewrite ?bool_decide_eq_true_2 by reflexivity;
  cbn [responses writes mails omap list_omap List.filter is_unlink length app
       mbind option_bind Nat.add].

Section ValidPost.

Variables (env : Env) (sub : Submission) (disk : gset (list N)).
Variables (part : FilePart) (n e p : Js.str).

Hypothesis Hfields : fields sub = {| name := Some n; email := Some e; position := Some p |}.
Hypothesis Hn : n <> [].
Hypothesis He : email_shape e.
Hypothesis Hp : p <> [].
Hypothesis Hpart : resume sub = Some part.
Hypothesis Hmime : part_mimetype part ∈ allowedMimes.
Hypothesis Hsize : part_size part <= fileSize.

Lemma uploaded_complete : incomplete (uploaded env sub) = false.
Proof using Hfields Hn He Hp Hpart.
  unfold incomplete, uploaded. cbn [body file]. rewrite Hfields, Hpart.
  cbn [name email position fmap option_fmap option_map].
  rewrite !truthy_nonempty by auto using shape_nonempty.
  rewrite bool_decide_eq_true_2 by eauto. reflexivity.
Qed.

Lemma uploaded_email_ok :
  Regex.test emailRegex (Js.to_string (email (body (uploaded env sub)))) = true.
Proof using Hfields He.
  unfold uploaded. cbn [body]. rewrite Hfields. cbn [email Js.to_string].
  apply emailRegex_shape, He.
Qed.

Lemma uploaded_file : file (uploaded env sub) = Some (stored_file env part).
Proof using Hpart. unfold uploaded. cbn [file]. rewrite Hpart. reflexivity. Qed.

(** The world a valid post leaves when the mail is sent. *)
Lemma valid_post_sent_world :
  verify_result env = None ->
  sendMail_result env = None ->
  serve env (post_candidatura sub) (fresh disk) =
  {| fs := ({[ stored_path env part ]} ∪ fs (with_uploadDir (fresh disk)))
           ∖ {[ stored_path env part ]};
     trace :=
       trace (with_uploadDir (fresh disk)) ++
       [ EWrite (stored_path env part);
         EVerify;
         ESendMail (mailOptions env n e p (stored_file env part));
         EUnlink (stored_path env part);
         ELog (Js.lit "Candidatura enviada: " ++ n ++ Js.lit " - " ++ p);
         ERespond (json_response 200 true
           (Js.lit "Candidatura enviada com sucesso! Entraremos em contato em breve.")) ] |}.
Proof using All.
  intros Hv Hs.
  rewrite serve_post, (upload_accepts _ _ _ part) by assumption.
  rewrite (handler_sends _ _ _ (stored_file env part))
    by auto using uploaded_complete, uploaded_email_ok, uploaded_file.
  cbn [snd]. unfold uploaded. cbn [body]. rewrite Hfields.
  cbn [name email position Js.to_string stored_file path].
  rewrite removed_in by (unfold log; cbn [fs]; apply stored_path_in).
  unfold log, stored; cbn [fs trace].
  rewrite <- !app_assoc. reflexivity.
Qed.

(** The world a valid post leaves when the transport does not answer. *)
Lemma valid_post_unverified_world (err : JsError) :
  verify_result env = Some err ->
  serve env (post_candidatura sub) (fresh disk) =
  {| fs := ({[ stored_path env part ]} ∪ fs (with_uploadDir (fresh disk)))
           ∖ {[ stored_path env part ]};
     trace :=
       trace (with_uploadDir (fresh disk)) ++
       [ EWrite (stored_path env part);
         EVerify;
         ELogError (Js.lit "Erro ao processar candidatura:") err;
         EUnlink (stored_path env part);
         ERespond (json_response 500 false (errorMessage err)) ] |}.
Proof using All.
  intros Hv.
  rewrite serve_post, (upload_accepts _ _ _ part) by assumption.
  rewrite (handler_verify_fails _ _ _ err)
    by auto using uploaded_complete, uploaded_email_ok.
  cbn [snd]. rewrite uploaded_file.
  rewrite cleaned_in by (unfold log; cbn [fs]; apply stored_path_in).
  unfold log, stored; cbn [fs trace stored_file path].
  rewrite <- !app_assoc. reflexivity.
Qed.

(** What the trace of that world says. *)
Lemma valid_post_sent :
  verify_result env = None ->
  sendMail_result env = None ->
  let w' := serve env (post_candidatura sub) (fresh disk) in
  let tmp := stored_path env part in
  responses (trace w')
  = [json_response 200 true
       (Js.lit "Candidatura enviada com sucesso! Entraremos em contato em breve.")]
  /\ writes (trace w') = [tmp]
  /\ mails (trace w') = [mailOptions env n e p (stored_file env part)]
  /\ unlinks tmp (trace w') = 1%nat
  /\ (tmp ∉ fs w').
Proof using All.
  intros Hv Hs w' tmp. subst w' tmp.
  rewrite valid_post_sent_world by assumption.
  read_trace disk (stored_path env part).
  repeat split. set_solver.
Qed.

End ValidPost.

(** C6. A post with the three text fields, an email of the right shape
    and an accepted resume, served while the transport verifies and
    accepts the message, is answered 200 with [success: true]; the file
    is stored once; [sendMail] is called exactly once, with one
    attachment carrying the original name, the stored path and the mime
    type of the upload and with the applicant's email as reply-to; and
    the stored file has been removed when the handler is done. *)
Theorem valid_submission_is_dispatched
    (env : Env) (sub : Submission) (disk : gset (list N))
    (part : FilePart) (n e p : Js.str) :
  fields sub = {| name := Some n; email := Some e; position := Some p |} ->
  n <> [] -> email_shape e -> p <> [] ->
  resume sub = Some part ->
  part_mimetype part ∈ allowedMimes ->
  part_size part <= fileSize ->
  verify_result env = None ->
  sendMail_result env = None ->
  let w' := serve env (post_candidatura sub) (fresh disk) in
  let tmp := stored_path env part in
  responses (trace w')
  = [json_response 200 true
       (Js.lit "Candidatura enviada com sucesso! Entraremos em contato em breve.")]
  /\ writes (trace w') = [tmp]
  /\ (exists m, mails (trace w') = [m]
        /\ Mail.attachments m
           = [ {| Mail.filename := part_originalname part;
                  Mail.path := tmp;
                  Mail.contentType := part_mimetype part |} ]
        /\ Mail.replyTo m = e)
  /\ unlinks tmp (trace w') = 1%nat
  /\ (tmp ∉ fs w').
Proof.
  intros Hfields Hn He Hp Hpart Hmime Hsize Hv Hs.
  destruct (valid_post_sent env sub disk part n e p
              Hfields Hn He Hp Hpart Hmime Hsize Hv Hs)
    as (Hr & Hw & Hm & Hu & Hgone).
  cbv zeta. rewrite Hm. repeat split; try assumption.
  eexists. repeat split.
Qed.

(** C7. The same post served while the transport cannot be verified:
    [verify] is called and throws, [sendMail] is never called, the
    answer is 500 with [success: false], and the stored file has been
    removed when the handler is done. *)
Theorem unreachable_transport_fails_fast
    (env : Env) (sub : Submission) (disk : gset (list N))
    (part : FilePart) (n e p : Js.str) (err : JsError) :
  fields sub = {| name := Some n; email := Some e; position := Some p |} ->
  n <> [] -> email_shape e -> p <> [] ->
  resume sub = Some part ->
  part_mimetype part ∈ allowedMimes ->
  part_size part <= fileSize ->
  verify_result env = Some err ->
  let w' := serve env (post_candidatura sub) (fresh disk) in
  let tmp := stored_path env part in
  responses (trace w') = [json_response 500 false (errorMessage err)]
  /\ EVerify ∈ trace w'
  /\ mails (trace w') = []
  /\ writes (trace w') = [tmp]
  /\ unlinks tmp (trace w') = 1%nat
  /\ (tmp ∉ fs w').
Proof.
  intros Hfields Hn He Hp Hpart Hmime Hsize Hv w' tmp. subst w' tmp.
  rewrite (valid_post_unverified_world env sub disk part n e p
             Hfields Hn He Hp Hpart Hmime Hsize err Hv).
  split; [|split].
  2:{ cbn [trace]. set_solver. }
  all: read_trace disk (stored_path env part).
  - reflexivity.
  - repeat split. set_solver.
Qed.

(** ** From the post to the handler *)

Lemma post_without_file (env : Env) (sub : Submission) (w : World) :
  resume sub = None ->
  serve env (post_candidatura sub) w = snd (handler_body env (uploaded env sub) w).
Proof. intros H. rewrite serve_post, upload_without_file by exact H. reflexivity. Qed.

Lemma post_with_file (env : Env) (sub : Submission) (w : World) (part : FilePart) :
  resume sub = Some part ->
  part_mimetype part ∈ allowedMimes ->
  part_size part <= fileSize ->
  serve env (post_candidatura sub) w
  = snd (handler_body env (uploaded env sub) (stored env part w)).
Proof.
  intros H Hm Hs. rewrite serve_post, (upload_accepts _ _ _ part) by assumption.
  reflexivity.
Qed.

(** ** Rejected uploads *)

(** Reached with the size error, the multer error middleware would
    answer 400 with the size message. *)
Lemma multer_error_middleware_on_size (env : Env) (req : Req) (w : World) :
  multer_error_middleware env LIMIT_FILE_SIZE req w
  = (SEnd,
     log (ERespond (json_response 400 false
            (Js.lit "Arquivo muito grande. Tamanho máximo permitido: 5MB"))) w).
Proof. reflexivity. Qed.

(** It is registered before the route, so the router never hands it an
    error of the upload: a post with an oversized file of an allowed type
    ends in the global error handler. *)
Lemma oversized_post (env : Env) (sub : Submission) (disk : gset (list N))
    (part : FilePart) :
  resume sub = Some part ->
  part_mimetype part ∈ allowedMimes ->
  fileSize < part_size part ->
  let w' := serve env (post_candidatura sub) (fresh disk) in
  responses (trace w')
  = [json_response 500 false (Js.lit "Erro interno do servidor")]
  /\ mails (trace w') = []
  /\ (stored_path env part ∉ fs w').
Proof.
  intros Hpart Hmime Hsize w'. subst w'.
  rewrite serve_post, (upload_rejects_size _ _ _ part) by assumption.
  unfold log, stored. read_trace disk (stored_path env part).
  repeat split. set_solver.
Qed.

(** C4. The code at a six-megabyte PDF: the post is answered 500 with the
    generic internal-error message, not 400 with the size message that
    the multer error middleware holds. *)
Theorem oversized_upload_answered_500 :
  responses (trace (serve env_ok (post_candidatura (submission big_pdf)) (fresh ∅)))
  = [json_response 500 false (Js.lit "Erro interno do servidor")]
  /\ json_response 400 false
       (Js.lit "Arquivo muito grande. Tamanho máximo permitido: 5MB")
     ∉ responses (trace (serve env_ok (post_candidatura (submission big_pdf))
                           (fresh ∅))).
Proof.
  split; [vm_compute; reflexivity|].
  intros H. vm_compute in H. apply list_elem_of_singleton in H. discriminate.
Qed.

(** C5, as stated, fails at a PNG: the post is not answered 400. *)
Lemma unsupported_type_is_not_answered_400 :
  ~ exists r,
      r ∈ responses (trace (serve env_ok (post_candidatura (submission photo_png))
                              (fresh ∅)))
      /\ status r = 400.
Proof.
  intros (r & Hr & Hst). vm_compute in Hr.
  apply list_elem_of_singleton in Hr. subst r. discriminate.
Qed.

(** C5, amended. A post whose resume has a content type outside the
    three allowed ones is turned down by the file filter before anything
    is stored: the error goes to the global error handler, which logs it
    and answers 500 with the generic message; the transport is never
    called and the disk is as it was. *)
Theorem unsupported_type_is_rejected
    (env : Env) (sub : Submission) (disk : gset (list N)) (part : FilePart) :
  resume sub = Some part ->
  part_mimetype part ∉ allowedMimes ->
  let w' := serve env (post_candidatura sub) (fresh disk) in
  trace w'
  = [ ELogError (Js.lit "Erro não tratado:") fileFilter_error;
      ERespond (json_response 500 false (Js.lit "Erro interno do servidor")) ]
  /\ mails (trace w') = []
  /\ writes (trace w') = []
  /\ fs w' = disk.
Proof.
  intros Hpart Hmime w'. subst w'.
  rewrite serve_post, (upload_rejects_type _ _ _ part) by assumption.
  repeat split.
Qed.

(** ** Stored names *)

Lemma stored_path_inj (env env' : Env) (part : FilePart) :
  stored_path env part = stored_path env' part ->
  date_now env = date_now env' /\ random_1e9 env = random_1e9 env'.
Proof.
  unfold stored_path, path_join_uploads. intros H.
  apply app_inv_head in H. apply storage_filename_inj in H. exact H.
Qed.

(** C8, as stated, fails: two posts of the same form served in the same
    millisecond with the same random draw are stored under one name. *)
Lemma same_instant_same_name :
  ~ (forall p1 p2,
       p1 ∈ writes (trace (serve env_ok (post_candidatura (submission cv_pdf))
                             (fresh ∅))) ->
       p2 ∈ writes (trace (serve env_ok (post_candidatura (submission cv_pdf))
                             (fresh (fs (serve env_ok
                                           (post_candidatura (submission cv_pdf))
                                           (fresh ∅)))))) ->
       p1 <> p2).
Proof.
  intros H.
  apply (H (stored_path env_ok cv_pdf) (stored_path env_ok cv_pdf));
    [vm_compute; apply list_elem_of_here .. | reflexivity].
Qed.

(** C8, amended. Two posts of the same valid form, served one after the
    other with a working transport, whose requests differ in the
    millisecond of [Date.now()] or in the random suffix: the two files
    are stored under distinct names, and each request gets its own 200
    and its own call of [sendMail] attaching its own stored file. *)
Theorem distinct_instants_distinct_names
    (env1 env2 : Env) (sub : Submission) (disk : gset (list N))
    (part : FilePart) (n e p : Js.str) :
  fields sub = {| name := Some n; email := Some e; position := Some p |} ->
  n <> [] -> email_shape e -> p <> [] ->
  resume sub = Some part ->
  part_mimetype part ∈ allowedMimes ->
  part_size part <= fileSize ->
  verify_result env1 = None -> sendMail_result env1 = None ->
  verify_result env2 = None -> sendMail_result env2 = None ->
  date_now env1 <> date_now env2 \/ random_1e9 env1 <> random_1e9 env2 ->
  let w1 := serve env1 (post_candidatura sub) (fresh disk) in
  let w2 := serve env2 (post_candidatura sub) (fresh (fs w1)) in
  let ok := json_response 200 true
      (Js.lit "Candidatura enviada com sucesso! Entraremos em contato em breve.") in
  stored_path env1 part <> stored_path env2 part
  /\ writes (trace w1) = [stored_path env1 part]
  /\ writes (trace w2) = [stored_path env2 part]
  /\ responses (trace w1) = [ok]
  /\ responses (trace w2) = [ok]
  /\ mails (trace w1) = [mailOptions env1 n e p (stored_file env1 part)]
  /\ mails (trace w2) = [mailOptions env2 n e p (stored_file env2 part)].
Proof.
  intros Hfields Hn He Hp Hpart Hmime Hsize Hv1 Hs1 Hv2 Hs2 Hdiff w1 w2 ok.
  subst w1 w2 ok.
  split.
  { intros Heq. apply stored_path_inj in Heq as [Ht Hr].
    destruct Hdiff; contradiction. }
  destruct (valid_post_sent env1 sub disk part n e p
              Hfields Hn He Hp Hpart Hmime Hsize Hv1 Hs1)
    as (Hr1 & Hw1 & Hm1 & _).
  destruct (valid_post_sent env2 sub
              (fs (serve env1 (post_candidatura sub) (fresh disk))) part n e p
              Hfields Hn He Hp Hpart Hmime Hsize Hv2 Hs2)
    as (Hr2 & Hw2 & Hm2 & _).
  auto 10.
Qed.

(** ** The theorems at the sample requests *)

Lemma ana_fields :
  fields (submission cv_pdf)
  = {| name := Some (Js.lit "Ana Souza");
       email := Some (Js.lit "ana.souza@example.com");
       position := Some (Js.lit "Desenvolvedora") |}.
Proof. reflexivity. Defined.

Lemma ana_email_shape : email_shape (Js.lit "ana.souza@example.com").
Proof. apply emailRegex_shape. vm_compute. reflexivity. Defined.

Lemma dotless_no_shape : ~ email_shape (Js.lit "ana.souza@example").
Proof. intros H. apply emailRegex_shape in H. vm_compute in H. discriminate. Defined.

Lemma pdf_allowed : part_mimetype cv_pdf ∈ allowedMimes.
Proof. apply list_elem_of_here. Defined.

Lemma png_not_allowed : part_mimetype photo_png ∉ allowedMimes.
Proof.
  intros H. apply (bool_decide_eq_true_2 _) in H. vm_compute in H. discriminate.
Defined.

Lemma cv_small : part_size cv_pdf <= fileSize.
Proof. vm_compute. discriminate. Defined.

Lemma stored_file_removed_exactly_once_witness :
  file cv_req = Some cv_stored
  /\ path cv_stored ∈ ({[ path cv_stored ]} : gset (list N))
  /\ unlinks (path cv_stored) (trace (handle env_ok cv_req {[ path cv_stored ]})) = 1%nat
  /\ (path cv_stored ∉ fs (handle env_ok cv_req {[ path cv_stored ]})).
Proof.
  split; [reflexivity|]. split; [set_solver|].
  destruct (stored_file_removed_exactly_once env_ok cv_req {[ path cv_stored ]} cv_stored)
    as (H1 & H2 & _); [reflexivity | set_solver | ].
  split; assumption.
Defined.



Lemma unsupported_type_is_rejected_witness :
  (part_mimetype photo_png ∉ allowedMimes)
  /\ responses (trace (serve env_ok (post_candidatura (submission photo_png)) (fresh ∅)))
     = [json_response 500 false (Js.lit "Erro interno do servidor")]
  /\ fs (serve env_ok (post_candidatura (submission photo_png)) (fresh ∅)) = ∅.
Proof.
  split; [exact png_not_allowed|].
  destruct (unsupported_type_is_rejected env_ok (submission photo_png) ∅ photo_png)
    as (H1 & _ & _ & H4); [reflexivity | exact png_not_allowed |].
  split; [rewrite H1; reflexivity | exact H4].
Defined.

Lemma valid_submission_is_dispatched_witness :
  responses (trace (serve env_ok (post_candidatura (submission cv_pdf)) (fresh ∅)))
  = [json_response 200 true
       (Js.lit "Candidatura enviada com sucesso! Entraremos em contato em breve.")]
  /\ (stored_path env_ok cv_pdf
      ∉ fs (serve env_ok (post_candidatura (submission cv_pdf)) (fresh ∅))).
Proof.
  destruct (valid_submission_is_dispatched env_ok (submission cv_pdf) ∅ cv_pdf
              (Js.lit "Ana Souza") (Js.lit "ana.souza@example.com")
              (Js.lit "Desenvolvedora"))
    as (H1 & _ & _ & _ & H5);
    [ exact ana_fields | vm_compute; discriminate | exact ana_email_shape
    | vm_compute; discriminate | reflexivity | exact pdf_allowed | exact cv_small
    | reflexivity | reflexivity | ].
  split; assumption.
Defined.

Lemma unreachable_transport_fails_fast_witness :
  verify_result env_down = Some ECONNECTION
  /\ responses (trace (serve env_down (post_candidatura (submission cv_pdf)) (fresh ∅)))
     = [json_response 500 false (Js.lit "Erro de configuração do servidor de e-mail")]
  /\ mails (trace (serve env_down (post_candidatura (submission cv_pdf)) (fresh ∅))) = [].
Proof.
  split; [reflexivity|].
  destruct (unreachable_transport_fails_fast env_down (submission cv_pdf) ∅ cv_pdf
              (Js.lit "Ana Souza") (Js.lit "ana.souza@example.com")
              (Js.lit "Desenvolvedora") ECONNECTION)
    as (H1 & _ & H3 & _);
    [ exact ana_fields | vm_compute; discriminate | exact ana_email_shape
    | vm_compute; discriminate | reflexivity | exact pdf_allowed | exact cv_small
    | reflexivity | ].
  split; [rewrite H1; vm_compute; reflexivity | exact H3].
Defined.

Lemma distinct_instants_distinct_names_witness :
  date_now env_ok <> date_now env_later
  /\ stored_path env_ok cv_pdf <> stored_path env_later cv_pdf.
Proof.
  split; [vm_compute; discriminate|].
  destruct (distinct_instants_distinct_names env_ok env_later (submission cv_pdf) ∅
              cv_pdf (Js.lit "Ana Souza") (Js.lit "ana.souza@example.com")
              (Js.lit "Desenvolvedora"))
    as (H1 & _);
    [ exact ana_fields | vm_compute; discriminate | exact ana_email_shape
    | vm_compute; discriminate | reflexivity | exact pdf_allowed | exact cv_small
    | reflexivity | reflexivity | reflexivity | reflexivity
    | left; vm_compute; discriminate | ].
  exact H1.
Defined.

Lemma dispatch_errors_answer_generic_messages_witness :
  dispatch_error env_down = Some ECONNECTION
  /\ responses (trace (handle env_down cv_req {[ path cv_stored ]}))
     = [json_response 500 false (errorMessage ECONNECTION)]
  /\ errorMessage ECONNECTION <> errorMessage (ENOENT (path cv_stored)).
Proof.
  destruct dispatch_errors_answer_generic_messages as (H1 & _ & _ & _ & H5).
  split; [reflexivity|]. split.
  - apply H1; vm_compute; reflexivity.
  - apply H5.
    + left. reflexivity.
    + intros [H | H]; vm_compute in H; discriminate.
Defined.

(** ** Checks on the sample data *)

Example lit_accent : Js.lit "são" = [115; 227; 111].
Proof. vm_compute. reflexivity. Qed.

Example cv_stored_path :
  path cv_stored = Js.lit "uploads/1700000000123-123456789_cv.pdf".
Proof. vm_compute. reflexivity. Qed.

Example emailRegex_samples :
  map (fun s => Regex.test emailRegex (Js.lit s))
    [ "a@b.c"; "ana.souza@example.com"; "a@b.c.d"; "a@b..d";
      "a@b"; "@b.c"; "a@.c"; "a@b."; "a b@c.d"; "a@b@c.d"; "" ]%string
  = [ true; true; true; true; false; false; false; false; false; false; false ].
Proof. vm_compute. reflexivity. Qed.

Example no_break_space_is_space :
  Regex.test emailRegex (Js.lit "a@b.c" ++ [160]) = false.
Proof. vm_compute. reflexivity. Qed.

Example cv_run :
  trace (serve env_ok (post_candidatura (submission cv_pdf)) (fresh ∅))
  = [ EMkdir uploadDir;
      EWrite (path cv_stored);
      EVerify;
      ESendMail (mailOptions env_ok (Js.lit "Ana Souza")
                   (Js.lit "ana.souza@example.com") (Js.lit "Desenvolvedora") cv_stored);
      EUnlink (path cv_stored);
      ELog (Js.lit "Candidatura enviada: Ana Souza - Desenvolvedora");
      ERespond (json_response 200 true
        (Js.lit "Candidatura enviada com sucesso! Entraremos em contato em breve.")) ].
Proof. vm_compute. reflexivity. Qed.

Example big_pdf_run :
  trace (serve env_ok (post_candidatura (submission big_pdf)) (fresh ∅))
  = [ EMkdir uploadDir;
      EWrite (stored_path env_ok big_pdf);
      EUnlink (stored_path env_ok big_pdf);
      ELogError (Js.lit "Erro não tratado:") LIMIT_FILE_SIZE;
      ERespond (json_response 500 false (Js.lit "Erro interno do servidor")) ].
Proof. vm_compute. reflexivity. Qed.

Example health_run :
  responses (trace (serve env_ok
    {| method := GET; url := Js.lit "/health"; sent := submission cv_pdf;
       body := ana; file := None |} (fresh ∅)))
  = [ {| status := 200;
         payload := Json (JObject [("status"%string, JString (Js.lit "OK"));
                                   ("timestamp"%string, JString (iso_now env_ok))]) |} ].
Proof. vm_compute. reflexivity. Qed.

Example unknown_route_run :
  responses (trace (serve env_ok
    {| method := GET; url := Js.lit "/vagas"; sent := submission cv_pdf;
       body := ana; file := None |} (fresh ∅)))
  = [ json_response 404 false (Js.lit "Rota não encontrada") ].
Proof. vm_compute. reflexivity. Qed.

(** * Further properties of [server.js] *)

(** ** The handler on any world *)

Lemma world_prepend (w : World) : w = prepend (trace w) (fresh (fs w)).
Proof. destruct w as [d t]. unfold prepend, fresh. cbn. rewrite app_nil_r. reflexivity. Qed.

Lemma log_prepend (e : Event) (t : list Event) (w : World) :
  log e (prepend t w) = prepend t (log e w).
Proof. unfold log, prepend. cbn [fs trace]. rewrite app_assoc. reflexivity. Qed.

Lemma removed_prepend (p : Js.str) (t : list Event) (w : World) :
  removed p (prepend t w) = prepend t (removed p w).
Proof.
  unfold removed, prepend. cbn [fs trace].
  destruct (bool_decide (p ∈ fs w)); cbn [fs trace]; rewrite ?app_assoc; reflexivity.
Qed.

Lemma cleaned_prepend (resumeFile : option UploadedFile) (t : list Event) (w : World) :
  cleaned resumeFile (prepend t w) = prepend t (cleaned resumeFile w).
Proof. destruct resumeFile; [apply removed_prepend | reflexivity]. Qed.

(** The handler reads the disk only and adds to the trace. *)
Lemma handler_prepend (env : Env) (req : Req) (t : list Event) (w : World) :
  snd (handler_body env req (prepend t w))
  = prepend t (snd (handler_body env req w)).
Proof.
  destruct (incomplete req) eqn:Hi.
  { rewrite !handler_incomplete by exact Hi. cbn [snd].
    rewrite cleaned_prepend, log_prepend. reflexivity. }
  destruct (Regex.test emailRegex (Js.to_string (email (body req)))) eqn:Hre.
  2:{ rewrite !handler_bad_email by assumption. cbn [snd].
      rewrite cleaned_prepend, log_prepend. reflexivity. }
  destruct (verify_result env) as [e|] eqn:Hv.
  { rewrite !(handler_verify_fails _ _ _ e) by assumption. cbn [snd].
    rewrite !log_prepend, cleaned_prepend, log_prepend. reflexivity. }
  destruct (complete_has_file req Hi) as [f Hf].
  destruct (sendMail_result env) as [e|] eqn:Hs.
  { rewrite !(handler_send_fails _ _ _ f e) by assumption. cbn [snd].
    rewrite !log_prepend, cleaned_prepend, log_prepend. reflexivity. }
  rewrite !(handler_sends _ _ _ f) by assumption. cbn [snd].
  rewrite !log_prepend, removed_prepend, !log_prepend. reflexivity.
Qed.

Lemma handler_on_world (env : Env) (req : Req) (w : World) :
  snd (handler_body env req w) = prepend (trace w) (handle env req (fs w)).
Proof.
  rewrite (world_prepend w) at 1. rewrite handler_prepend. reflexivity.
Qed.

Lemma fs_removed (p : Js.str) (w : World) : fs (removed p w) = fs w ∖ {[ p ]}.
Proof.
  unfold removed. destruct (bool_decide (p ∈ fs w)) eqn:E; [reflexivity|].
  apply bool_decide_eq_false in E. set_solver.
Qed.

Lemma fs_cleaned (resumeFile : option UploadedFile) (w : World) :
  fs (cleaned resumeFile w)
  = match resumeFile with Some f => fs w ∖ {[ path f ]} | None => fs w end.
Proof. destruct resumeFile; [apply fs_removed | reflexivity]. Qed.

Lemma fs_handle (env : Env) (req : Req) (disk : gset (list N)) :
  fs (handle env req disk)
  = match file req with
    | Some f => disk ∖ {[ path f ]}
    | None => disk
    end.
Proof.
  unfold handle.
  destruct (handler_exits env req (fresh disk)) as [[] H]; cbn zeta in H.
  - destruct H as (_ & ->). unfold log; cbn [fs]. apply fs_cleaned.
  - destruct H as (_ & _ & ->). unfold log; cbn [fs]. apply fs_cleaned.
  - destruct H as (_ & _ & e & _ & ->). unfold log at 1; cbn [fs].
    rewrite fs_cleaned. reflexivity.
  - destruct H as (_ & _ & _ & e & f & _ & _ & ->). unfold log at 1; cbn [fs].
    rewrite fs_cleaned. reflexivity.
  - destruct H as (_ & _ & _ & _ & f & Hf & ->). unfold log at 1 2; cbn [fs].
    rewrite fs_removed, Hf. reflexivity.
Qed.

(** X1. The handler never creates a file and never removes any file but
    the uploaded one: the disk it leaves is the disk it found without
    [req.file.path], and the very same disk when there is no upload. *)
Theorem handler_touches_only_the_upload
    (env : Env) (req : Req) (disk : gset (list N)) :
  fs (handle env req disk)
  = match file req with
    | Some f => disk ∖ {[ path f ]}
    | None => disk
    end.
Proof. apply fs_handle. Qed.




(** ** The transport *)

Lemma EVerify_not_cleaned (resumeFile : option UploadedFile) (disk : gset (list N)) :
  EVerify ∉ trace (cleaned resumeFile (fresh disk)).
Proof.
  destruct resumeFile as [f|]; [rewrite cleaned_trace|]; cbn [trace fresh app].
  - destruct (bool_decide _); set_solver.
  - set_solver.
Qed.

(** X3. The handler asks the transport nothing before validation has
    passed, and it calls [sendMail] at most once and only right after a
    [verify] that succeeded: a request that fails validation leaves no
    [verify] and no [sendMail] in the trace, and a trace with a mail
    starts with the [verify] call followed by that one [sendMail]. *)
Theorem sendMail_only_after_verify
    (env : Env) (req : Req) (disk : gset (list N)) :
  ((incomplete req = true
    \/ Regex.test emailRegex (Js.to_string (email (body req))) = false) ->
   (EVerify ∉ trace (handle env req disk))
   /\ mails (trace (handle env req disk)) = [])
  /\ (forall m, m ∈ mails (trace (handle env req disk)) ->
        verify_result env = None
        /\ mails (trace (handle env req disk)) = [m]
        /\ exists rest,
             trace (handle env req disk) = EVerify :: ESendMail m :: rest).
Proof.
  unfold handle.
  destruct (handler_exits env req (fresh disk)) as [[] H]; cbn zeta in H.
  - destruct H as (Hi & ->). unfold log; cbn [trace].
    rewrite mails_app, mails_cleaned. split.
    + intros _. split; [|reflexivity].
      pose proof (EVerify_not_cleaned (file req) disk). set_solver.
    + intros m Hm. cbn in Hm. set_solver.
  - destruct H as (Hi & Hre & ->). unfold log; cbn [trace].
    rewrite mails_app, mails_cleaned. split.
    + intros _. split; [|reflexivity].
      pose proof (EVerify_not_cleaned (file req) disk). set_solver.
    + intros m Hm. cbn in Hm. set_solver.
  - destruct H as (Hi & Hre & e & Hv & ->). split; [intros [?|?]; congruence|].
    intros m Hm. exfalso. revert Hm. unfold log at 1; cbn [trace].
    rewrite mails_app, mails_cleaned. cbn. set_solver.
  - destruct H as (Hi & Hre & Hv & e & f & Hs & Hf & ->).
    split; [intros [?|?]; congruence|].
    unfold log; cbn [fs trace fresh app]. rewrite Hf, cleaned_trace.
    cbn [fs trace app]. destruct (bool_decide _); cbn;
      intros m Hm; apply list_elem_of_singleton in Hm; subst m;
      repeat split; eauto.
  - destruct H as (Hi & Hre & Hv & Hs & f & Hf & ->).
    split; [intros [?|?]; congruence|].
    unfold removed, log; cbn [fs trace fresh app].
    destruct (bool_decide _); cbn;
      intros m Hm; apply list_elem_of_singleton in Hm; subst m;
      repeat split; eauto.
Qed.

(** ** Empty fields *)

(** X4. A text field that is present but empty counts as missing: the
    handler answers 400 with the missing-fields message, does not look at
    the email pattern or the transport, and removes the uploaded file. *)
Theorem empty_field_is_rejected (env : Env) (req : Req) (disk : gset (list N)) :
  name (body req) = Some [] \/ email (body req) = Some []
  \/ position (body req) = Some [] ->
  responses (trace (handle env req disk))
  = [json_response 400 false (Js.lit "Todos os campos são obrigatórios")]
  /\ mails (trace (handle env req disk)) = []
  /\ forall f, file req = Some f -> path f ∉ fs (handle env req disk).
Proof.
  intros H.
  assert (incomplete req = true) as Hi.
  { unfold incomplete.
    destruct H as [-> | [-> | ->]]; cbn [Js.truthy negb];
      rewrite ?orb_true_r; reflexivity. }
  unfold handle. rewrite handler_incomplete by exact Hi. cbn [snd].
  unfold log; cbn [fs trace]. rewrite responses_app, mails_app.
  rewrite responses_cleaned, mails_cleaned.
  repeat split. intros f Hf. apply cleaned_fs_gone, Hf.
Qed.

(** ** What an accepted email looks like *)

Lemma plain_count (l : Js.str) : Forall plain l -> count_occ N.eq_dec l 64 = 0%nat.
Proof.
  induction 1 as [|c l [_ Hc] _ IH]; [reflexivity|].
  cbn. destruct (N.eq_dec c 64); [congruence|exact IH].
Qed.

Lemma plain_no_space (l : Js.str) :
  Forall plain l -> Forall (fun c => Js.is_space c = false) l.
Proof. intros H. eapply Forall_impl; [exact H|]. intros c [Hc _]. exact Hc. Qed.

(** X5. An email the pattern accepts has exactly one [@], which is
    neither its first nor its last unit, holds no white space (in the
    sense of [\s], line ends and no-break space included), and is at
    least five units long. *)
Theorem accepted_email_facts (s : Js.str) :
  Regex.test emailRegex s = true ->
  count_occ N.eq_dec s 64 = 1%nat
  /\ Forall (fun c => Js.is_space c = false) s
  /\ (5 <= length s)%nat
  /\ head s <> Some 64
  /\ last s <> Some 64.
Proof.
  intros H. apply emailRegex_shape in H
    as (loc & dom & tld & -> & Hloc & Hdom & Htld & Floc & Fdom & Ftld).
  split; [|split; [|split; [|split]]].
  - rewrite count_occ_app. cbn [count_occ].
    destruct (N.eq_dec 64 64); [|congruence].
    rewrite count_occ_app. cbn [count_occ].
    destruct (N.eq_dec 46 64); [discriminate|].
    rewrite !plain_count by assumption. reflexivity.
  - apply Forall_app. split; [apply plain_no_space, Floc|].
    constructor; [reflexivity|].
    apply Forall_app. split; [apply plain_no_space, Fdom|].
    constructor; [reflexivity | apply plain_no_space, Ftld].
  - rewrite length_app. cbn [length]. rewrite length_app. cbn [length].
    destruct loc; [congruence|]. destruct dom; [congruence|].
    destruct tld; [congruence|]. cbn [length]. lia.
  - destruct Floc as [|c loc [_ Hc] _]; [congruence|]. cbn. congruence.
  - change (loc ++ 64 :: dom ++ 46 :: tld)
      with (loc ++ (64 :: dom) ++ 46 :: tld).
    rewrite !app_assoc.
    destruct (exists_last Htld) as (tl & c & ->).
    rewrite app_comm_cons, app_assoc, last_snoc.
    apply Forall_app in Ftld as [_ Fc]. inversion Fc as [|? ? [_ Hc] _]; subst.
    congruence.
Qed.

(** ** Stored names *)

(** X6. The name the disk storage gives a file determines the
    millisecond, the random suffix and the original name: two uploads
    get the same stored name only if all three agree. *)
Theorem storage_filename_determines_its_parts
    (env env' : Env) (part part' : FilePart) :
  storage_filename env part = storage_filename env' part' ->
  date_now env = date_now env'
  /\ random_1e9 env = random_1e9 env'
  /\ part_originalname part = part_originalname part'.
Proof.
  unfold storage_filename. rewrite <- !app_assoc. intros H.
  apply (digits_sep_inj 45) in H;
    [ | reflexivity | apply digits_all | apply digits_all ].
  destruct H as [Ht H].
  apply (digits_sep_inj 95) in H;
    [ | reflexivity | apply digits_all | apply digits_all ].
  destruct H as [Hr Hn].
  repeat split; [apply of_number_inj, Ht | apply of_number_inj, Hr | exact Hn].
Qed.

(** ** The upload directory *)

(** X7. [storage.destination] always answers [./uploads] and leaves the
    directory in place; when the directory is already there it does
    nothing at all, so asking twice is the same as asking once. *)
Theorem storage_destination_idempotent (w : World) :
  fst (storage_destination w) = Normal uploadDir
  /\ uploadDir ∈ fs (snd (storage_destination w))
  /\ fs (snd (storage_destination w)) = {[ uploadDir ]} ∪ fs w
  /\ (uploadDir ∈ fs w -> snd (storage_destination w) = w)
  /\ storage_destination (snd (storage_destination w))
     = (Normal uploadDir, snd (storage_destination w)).
Proof.
  rewrite !storage_destination_run. cbn [fst snd].
  assert (forall w, uploadDir ∈ fs w -> with_uploadDir w = w) as Hid.
  { intros w0 H. unfold with_uploadDir. rewrite bool_decide_eq_true_2; auto. }
  assert (uploadDir ∈ fs (with_uploadDir w)) as Hin.
  { unfold with_uploadDir. destruct (bool_decide _) eqn:E.
    - apply bool_decide_eq_true in E. exact E.
    - cbn [fs]. set_solver. }
  repeat split; auto.
  - unfold with_uploadDir. destruct (bool_decide _) eqn:E; cbn [fs]; [|reflexivity].
    apply bool_decide_eq_true in E. set_solver.
  - rewrite (Hid _ Hin). reflexivity.
Qed.

(** ** The three messages of the [catch] block *)

Lemma errorMessage_split (e : JsError) :
  (transport_code e
   /\ errorMessage e = Js.lit "Erro de configuração do servidor de e-mail")
  \/ (~ transport_code e /\ code e = Some (Js.lit "ENOENT")
      /\ errorMessage e = Js.lit "Erro ao processar o arquivo anexo")
  \/ (~ transport_code e /\ code e <> Some (Js.lit "ENOENT")
      /\ errorMessage e = Js.lit "Erro interno do servidor").
Proof.
  unfold errorMessage, transport_code.
  destruct (decide (code e = Some (Js.lit "ECONNECTION"))) as [H1|H1].
  { rewrite (bool_decide_eq_true_2 _ H1). left. split; [left; exact H1|reflexivity]. }
  rewrite (bool_decide_eq_false_2 _ H1).
  destruct (decide (code e = Some (Js.lit "EAUTH"))) as [H2|H2].
  { rewrite (bool_decide_eq_true_2 _ H2). left. split; [right; exact H2|reflexivity]. }
  rewrite (bool_decide_eq_false_2 _ H2). cbn [orb].
  assert (~ (code e = Some (Js.lit "ECONNECTION") \/ code e = Some (Js.lit "EAUTH")))
    as Hn by (intros [H|H]; [exact (H1 H) | exact (H2 H)]).
  destruct (decide (code e = Some (Js.lit "ENOENT"))) as [H3|H3].
  { rewrite (bool_decide_eq_true_2 _ H3). right; left. repeat split; assumption. }
  rewrite (bool_decide_eq_false_2 _ H3). right; right. repeat split; assumption.
Qed.

(** X8. [errorMessage] is decided by [error.code]: the mail-server
    message exactly for [ECONNECTION] and [EAUTH], the attachment message
    exactly for [ENOENT], the generic message for every other code and
    for an error without a code; the three messages are pairwise
    distinct. *)
Theorem errorMessage_by_code (e : JsError) :
  (errorMessage e = Js.lit "Erro de configuração do servidor de e-mail"
   <-> transport_code e)
  /\ (errorMessage e = Js.lit "Erro ao processar o arquivo anexo"
      <-> code e = Some (Js.lit "ENOENT"))
  /\ (errorMessage e = Js.lit "Erro interno do servidor"
      <-> ~ transport_code e /\ code e <> Some (Js.lit "ENOENT")).
Proof.
  assert (Js.lit "Erro de configuração do servidor de e-mail"
          <> Js.lit "Erro ao processar o arquivo anexo") as D12
    by (vm_compute; discriminate).
  assert (Js.lit "Erro de configuração do servidor de e-mail"
          <> Js.lit "Erro interno do servidor") as D13
    by (vm_compute; discriminate).
  assert (Js.lit "Erro ao processar o arquivo anexo"
          <> Js.lit "Erro interno do servidor") as D23
    by (vm_compute; discriminate).
  assert (Some (Js.lit "ENOENT") <> Some (Js.lit "ECONNECTION")) as C1
    by (vm_compute; discriminate).
  assert (Some (Js.lit "ENOENT") <> Some (Js.lit "EAUTH")) as C2
    by (vm_compute; discriminate).
  destruct (errorMessage_split e) as [[Ht ->] | [(Hn & Hc & ->) | (Hn & Hc & ->)]].
  - split; [|split]; split.
    + intros _. exact Ht.
    + reflexivity.
    + intros E. exfalso. exact (D12 E).
    + intros E. exfalso. unfold transport_code in Ht. rewrite E in Ht.
      destruct Ht as [H|H]; [exact (C1 H) | exact (C2 H)].
    + intros E. exfalso. exact (D13 E).
    + intros [Hn _]. exfalso. exact (Hn Ht).
  - split; [|split]; split.
    + intros E. exfalso. apply D12. symmetry. exact E.
    + intros Ht. exfalso. exact (Hn Ht).
    + intros _. exact Hc.
    + reflexivity.
    + intros E. exfalso. exact (D23 E).
    + intros [_ Hc']. exfalso. exact (Hc' Hc).
  - split; [|split]; split.
    + intros E. exfalso. apply D13. symmetry. exact E.
    + intros Ht. exfalso. exact (Hn Ht).
    + intros E. exfalso. apply D23. symmetry. exact E.
    + intros Hc'. exfalso. exact (Hc Hc').
    + intros _. split; assumption.
    + reflexivity.
Qed.

(** ** The router on any request *)

(** Which layer of [app] answers: a static file, the index page, the
    upload and the handler, the health check, or the 404 layer. *)
Lemma serve_unfold (env : Env) (req : Req) (w : World) :
  serve env req w =
  if (Method_eqb (method req) GET || Method_eqb (method req) HEAD)
     && bool_decide (Js.lit "public" ++ url req ∈ fs w)
  then log (ERespond {| status := 200;
                        payload := SentFile (Js.lit "public" ++ url req) |}) w
  else if bool_decide (url req = Js.lit "/") && handles_method GET (method req)
  then log (ERespond {| status := 200;
                        payload := SentFile (Js.lit "public/index.html") |}) w
  else if bool_decide (url req = Js.lit "/enviar-candidatura")
          && handles_method POST (method req)
  then match upload_single env req w with
       | (SNext req', w') => snd (handler_body env req' w')
       | (SError e, w') =>
           log (ERespond (json_response 500 false (Js.lit "Erro interno do servidor")))
             (log (ELogError (Js.lit "Erro não tratado:") e) w')
       | (SEnd, w') => w'
       end
  else if bool_decide (url req = Js.lit "/health") && handles_method GET (method req)
  then log (ERespond
              {| status := 200;
                 payload := Json (JObject [("status"%string, JString (Js.lit "OK"));
                                           ("timestamp"%string, JString (iso_now env))]) |}) w
  else log (ERespond (json_response 404 false (Js.lit "Rota não encontrada"))) w.
Proof.
  unfold serve, app.
  cbn [router express_json express_urlencoded].
  unfold express_static.
  destruct ((Method_eqb (method req) GET || Method_eqb (method req) HEAD)
            && bool_decide (Js.lit "public" ++ url req ∈ fs w)); [reflexivity|].
  cbn [router].
  destruct (bool_decide (url req = Js.lit "/") && handles_method GET (method req));
    [reflexivity|].
  destruct (bool_decide (url req = Js.lit "/enviar-candidatura")
            && handles_method POST (method req)).
  { cbn [run_route].
    destruct (upload_single env req w) as [[req'|e|] w']; reflexivity. }
  destruct (bool_decide (url req = Js.lit "/health") && handles_method GET (method req));
    reflexivity.
Qed.

(** The upload middleware on any request: what it hands over and what
    it leaves. *)
Lemma upload_single_cases (env : Env) (req : Req) (w : World) :
  (resume (sent req) = None
   /\ upload_single env req w = (SNext (with_body req (fields (sent req))), w))
  \/ (exists part, resume (sent req) = Some part
        /\ (part_mimetype part ∉ allowedMimes)
        /\ upload_single env req w = (SError fileFilter_error, w))
  \/ (exists part, resume (sent req) = Some part
        /\ part_mimetype part ∈ allowedMimes
        /\ fileSize < part_size part
        /\ upload_single env req w
           = (SError LIMIT_FILE_SIZE,
              {| fs := fs (stored env part w) ∖ {[ stored_path env part ]};
                 trace := trace (stored env part w)
                          ++ [EUnlink (stored_path env part)] |}))
  \/ (exists part, resume (sent req) = Some part
        /\ part_mimetype part ∈ allowedMimes
        /\ part_size part <= fileSize
        /\ upload_single env req w
           = (SNext (with_file (with_body req (fields (sent req)))
                       (stored_file env part)),
              stored env part w)).
Proof.
  assert (resume (sent (with_body req (fields (sent req)))) = resume (sent req))
    as Hsent by reflexivity.
  destruct (resume (sent req)) as [part|] eqn:Hpart.
  2:{ left. split; [reflexivity|]. unfold upload_single. rewrite Hsent. reflexivity. }
  right.
  destruct (decide (part_mimetype part ∈ allowedMimes)) as [Hm|Hm].
  2:{ left. exists part. repeat split; [exact Hm|].
      unfold upload_single. rewrite Hsent, (fileFilter_rejects _ Hm). reflexivity. }
  right.
  destruct (fileSize <? part_size part) eqn:Hs.
  - left. exists part. repeat split; [exact Hm | apply N.ltb_lt, Hs |].
    unfold upload_single. rewrite Hsent, (fileFilter_accepts _ Hm).
    unfold mbind, M_bind. rewrite storage_destination_run. unfold writeFile.
    rewrite Hs. unfold unlinkSync, throw. cbn [fs].
    rewrite bool_decide_eq_true_2 by set_solver. reflexivity.
  - right. exists part. repeat split; [exact Hm | apply N.ltb_ge, Hs |].
    unfold upload_single. rewrite Hsent, (fileFilter_accepts _ Hm).
    unfold mbind, M_bind. rewrite storage_destination_run. unfold writeFile.
    rewrite Hs. reflexivity.
Qed.

Lemma with_uploadDir_extends (w : World) :
  exists evs, trace (with_uploadDir w) = trace w ++ evs
    /\ responses evs = [] /\ mails evs = [].
Proof.
  unfold with_uploadDir. destruct (bool_decide _).
  - exists []. rewrite app_nil_r. auto.
  - exists [EMkdir uploadDir]. auto.
Qed.

Lemma stored_extends (env : Env) (part : FilePart) (w : World) :
  exists evs, trace (stored env part w) = trace w ++ evs
    /\ responses evs = [] /\ mails evs = [].
Proof.
  destruct (with_uploadDir_extends w) as (evs & E & Hr & Hm).
  exists (evs ++ [EWrite (stored_path env part)]).
  unfold stored. cbn [trace]. rewrite E, app_assoc, responses_app, mails_app, Hr, Hm.
  auto.
Qed.

(** The response that only the multer error middleware sends. *)
Lemma size_response_is_no_handler_response (env : Env) (req : Req) (disk : gset (list N)) :
  json_response 400 false (Js.lit "Arquivo muito grande. Tamanho máximo permitido: 5MB")
  ∉ responses (trace (handle env req disk)).
Proof.
  destruct (handler_responses env req disk)
    as (r & -> & [-> | [-> | [(e & _ & ->) | (_ & ->)]]]);
    intros H; apply list_elem_of_singleton in H.
  - vm_compute in H. discriminate.
  - vm_compute in H. discriminate.
  - apply (f_equal status) in H. discriminate.
  - apply (f_equal status) in H. discriminate.
Qed.

Lemma serve_answers (env : Env) (req : Req) (w : World) :
  exists evs r,
    trace (serve env req w) = trace w ++ evs
    /\ responses evs = [r]
    /\ r <> json_response 400 false
              (Js.lit "Arquivo muito grande. Tamanho máximo permitido: 5MB").
Proof.
  assert (forall r' w',
            status r' <> 400 ->
            (exists pre, trace w' = trace w ++ pre /\ responses pre = []) ->
            exists evs r,
              trace (log (ERespond r') w') = trace w ++ evs
              /\ responses evs = [r]
              /\ r <> json_response 400 false
                        (Js.lit "Arquivo muito grande. Tamanho máximo permitido: 5MB"))
    as Hone.
  { intros r' w' Hst (pre & E & Hpre). exists (pre ++ [ERespond r']), r'.
    unfold log; cbn [trace]. rewrite E, app_assoc, responses_app, Hpre.
    repeat split. intros ->. apply Hst. reflexivity. }
  assert (exists pre, trace w = trace w ++ pre /\ responses pre = []) as Hnil
    by (exists []; rewrite app_nil_r; auto).
  rewrite serve_unfold.
  destruct (_ && _); [apply Hone; [discriminate | exact Hnil]|].
  destruct (_ && _); [apply Hone; [discriminate | exact Hnil]|].
  destruct (_ && _).
  2:{ destruct (_ && _); apply Hone; try discriminate; exact Hnil. }
  assert (forall req' w',
            (exists pre, trace w' = trace w ++ pre /\ responses pre = []) ->
            exists evs r,
              trace (snd (handler_body env req' w')) = trace w ++ evs
              /\ responses evs = [r]
              /\ r <> json_response 400 false
                        (Js.lit "Arquivo muito grande. Tamanho máximo permitido: 5MB"))
    as Hhandler.
  { intros req' w' (pre & E & Hpre). rewrite handler_on_world.
    destruct (handler_responses env req' (fs w')) as (r & Hr & _).
    exists (pre ++ trace (handle env req' (fs w'))), r.
    unfold prepend; cbn [trace]. rewrite E, app_assoc, responses_app, Hpre, Hr.
    repeat split. intros ->.
    apply (size_response_is_no_handler_response env req' (fs w')).
    rewrite Hr. apply list_elem_of_here. }
  destruct (upload_single_cases env req w)
    as [(_ & ->) | [(part & _ & _ & ->) | [(part & _ & _ & _ & ->)
                                          | (part & _ & _ & _ & ->)]]].
  - apply Hhandler, Hnil.
  - apply Hone; [discriminate|].
    exists [ELogError (Js.lit "Erro não tratado:") fileFilter_error]. auto.
  - apply Hone; [discriminate|].
    destruct (stored_extends env part w) as (evs & E & Hr & _).
    exists (evs ++ [EUnlink (stored_path env part);
                    ELogError (Js.lit "Erro não tratado:") LIMIT_FILE_SIZE]).
    unfold log; cbn [trace]. rewrite E, <- !app_assoc, responses_app, Hr. auto.
  - apply Hhandler. destruct (stored_extends env part w) as (evs & E & Hr & _). eauto.
Qed.

(** X9. Every request, whatever its method, its url and its form, gets
    exactly one response: no path through the stack ends without an
    answer and none answers twice. *)
Theorem every_request_is_answered_once (env : Env) (req : Req) (w : World) :
  exists evs r,
    trace (serve env req w) = trace w ++ evs /\ responses evs = [r].
Proof.
  destruct (serve_answers env req w) as (evs & r & E & Hr & _). eauto.
Qed.

(** X10. No request at all is answered with the size message of the
    multer error middleware: the one layer that raises a multer error,
    the upload, comes after the middleware in the stack, and the router
    hands an error to later layers only. *)
Theorem size_message_is_never_sent (env : Env) (req : Req) (disk : gset (list N)) :
  json_response 400 false (Js.lit "Arquivo muito grande. Tamanho máximo permitido: 5MB")
  ∉ responses (trace (serve env req (fresh disk))).
Proof.
  destruct (serve_answers env req (fresh disk)) as (evs & r & E & Hr & Hne).
  rewrite E. cbn [trace fresh]. rewrite app_nil_l, Hr.
  intros H. apply list_elem_of_singleton in H. congruence.
Qed.

(** ** Requests the routes do not take *)

Lemma health_is_not_root : bool_decide (Js.lit "/health" = Js.lit "/") = false.
Proof. vm_compute. reflexivity. Qed.

Lemma health_is_not_intake :
  bool_decide (Js.lit "/health" = Js.lit "/enviar-candidatura") = false.
Proof. vm_compute. reflexivity. Qed.


(** X12. The intake url takes [POST] only: with any other method, and no
    static file of that name, the request is answered 404 and neither the
    upload middleware nor the handler runs. *)
Theorem intake_takes_post_only (env : Env) (req : Req) (w : World) :
  url req = Js.lit "/enviar-candidatura" ->
  method req <> POST ->
  Js.lit "public" ++ Js.lit "/enviar-candidatura" ∉ fs w ->
  serve env req w
  = log (ERespond (json_response 404 false (Js.lit "Rota não encontrada"))) w.
Proof.
  intros Hu Hm Hstatic. rewrite serve_unfold, Hu.
  rewrite (bool_decide_eq_false_2 _ Hstatic), andb_false_r.
  rewrite root_is_not_the_route.
  rewrite (bool_decide_eq_true_2 (Js.lit "/enviar-candidatura" = _)) by reflexivity.
  assert (bool_decide (Js.lit "/enviar-candidatura" = Js.lit "/health") = false)
    as -> by (vm_compute; reflexivity).
  unfold handles_method.
  destruct (method req); cbn [Method_eqb orb andb]; try reflexivity.
  congruence.
Qed.

(** X13. [GET /health], when no static file shadows it, is answered 200
    with [{status: 'OK', timestamp}] where the timestamp is the ISO
    string of the clock, and nothing else happens. *)
Theorem health_answers_ok (env : Env) (req : Req) (w : World) :
  url req = Js.lit "/health" ->
  method req = GET ->
  Js.lit "public" ++ Js.lit "/health" ∉ fs w ->
  serve env req w
  = log (ERespond
           {| status := 200;
              payload := Json (JObject [("status"%string, JString (Js.lit "OK"));
                                        ("timestamp"%string, JString (iso_now env))]) |}) w.
Proof.
  intros Hu Hm Hstatic. rewrite serve_unfold, Hu, Hm.
  rewrite (bool_decide_eq_false_2 _ Hstatic), andb_false_r.
  rewrite health_is_not_root, health_is_not_intake.
  rewrite (bool_decide_eq_true_2 (Js.lit "/health" = _)) by reflexivity.
  reflexivity.
Qed.

(** ** The disk after a post *)

Lemma fs_with_uploadDir (w : World) : fs (with_uploadDir w) = {[ uploadDir ]} ∪ fs w.
Proof.
  unfold with_uploadDir. destruct (bool_decide _) eqn:E; cbn [fs]; [|reflexivity].
  apply bool_decide_eq_true in E. set_solver.
Qed.

(** X14. A post whose upload is accepted never leaves the stored file
    behind, whatever the text fields hold and whatever the transport
    does: afterwards the disk is the disk before, with the upload
    directory added and without the stored path (a file that was
    already at that path is gone too). *)
Theorem accepted_upload_never_outlives_the_post
    (env : Env) (sub : Submission) (disk : gset (list N)) (part : FilePart) :
  resume sub = Some part ->
  part_mimetype part ∈ allowedMimes ->
  part_size part <= fileSize ->
  fs (serve env (post_candidatura sub) (fresh disk))
  = ({[ uploadDir ]} ∪ disk) ∖ {[ stored_path env part ]}
  /\ (stored_path env part ∉ fs (serve env (post_candidatura sub) (fresh disk))).
Proof.
  intros Hpart Hmime Hsize.
  rewrite (post_with_file _ _ _ part) by assumption.
  rewrite handler_on_world. unfold prepend; cbn [fs].
  rewrite fs_handle. unfold uploaded; cbn [file]. rewrite Hpart.
  cbn [fmap option_fmap option_map stored_file path].
  unfold stored; cbn [fs]. rewrite fs_with_uploadDir. cbn [fresh fs].
  split; set_solver.
Qed.

(** X15. A post whose resume has an allowed type but more than
    [5 * 1024 * 1024] bytes: the part is written and removed again by the
    upload middleware, the handler never runs (no [verify], no mail), and
    the answer is 500 with the generic message of the global error
    handler. *)
Theorem oversized_upload_is_removed_and_answered_500
    (env : Env) (sub : Submission) (disk : gset (list N)) (part : FilePart) :
  resume sub = Some part ->
  part_mimetype part ∈ allowedMimes ->
  fileSize < part_size part ->
  exists mkdir,
    (mkdir = [] \/ mkdir = [EMkdir uploadDir])
    /\ trace (serve env (post_candidatura sub) (fresh disk))
       = mkdir ++
         [ EWrite (stored_path env part);
           EUnlink (stored_path env part);
           ELogError (Js.lit "Erro não tratado:") LIMIT_FILE_SIZE;
           ERespond (json_response 500 false (Js.lit "Erro interno do servidor")) ]
    /\ fs (serve env (post_candidatura sub) (fresh disk))
       = ({[ uploadDir ]} ∪ disk) ∖ {[ stored_path env part ]}.
Proof.
  intros Hpart Hmime Hsize.
  rewrite serve_post, (upload_rejects_size _ _ _ part) by assumption.
  exists (trace (with_uploadDir (fresh disk))). split; [apply with_uploadDir_trace|].
  unfold log, stored; cbn [fs trace]. rewrite fs_with_uploadDir. cbn [fresh fs].
  split; [rewrite <- !app_assoc; reflexivity | set_solver].
Qed.

(** ** Posts end to end *)

(** X16. A post without a resume part stores nothing and asks the
    transport nothing: whatever the text fields hold, the only event is
    the 400 response with the missing-fields message, and the disk is
    untouched (the upload directory is not even created). *)
Theorem post_without_resume_is_rejected
    (env : Env) (sub : Submission) (disk : gset (list N)) :
  resume sub = None ->
  serve env (post_candidatura sub) (fresh disk)
  = {| fs := disk;
       trace := [ERespond (json_response 400 false
                   (Js.lit "Todos os campos são obrigatórios"))] |}.
Proof.
  intros H. rewrite post_without_file by exact H.
  assert (incomplete (uploaded env sub) = true) as Hi.
  { unfold incomplete, uploaded. cbn [file]. rewrite H. cbn [fmap option_fmap option_map].
    rewrite bool_decide_eq_false_2 by (intros [? ?]; discriminate).
    cbn [negb]. rewrite !orb_true_r. reflexivity. }
  rewrite handler_incomplete by exact Hi. cbn [snd].
  unfold uploaded; cbn [file]. rewrite H. reflexivity.
Qed.

(** X17. The upload is stored before the form is validated: a post with
    an accepted resume, the three fields filled in and an email outside
    the shape writes the file, removes it again and answers 400 with the
    invalid-email message, without a call to the transport. *)
Theorem malformed_email_post_stores_then_removes
    (env : Env) (sub : Submission) (disk : gset (list N))
    (part : FilePart) (n e p : Js.str) :
  fields sub = {| name := Some n; email := Some e; position := Some p |} ->
  n <> [] -> e <> [] -> p <> [] ->
  ~ email_shape e ->
  resume sub = Some part ->
  part_mimetype part ∈ allowedMimes ->
  part_size part <= fileSize ->
  exists mkdir,
    (mkdir = [] \/ mkdir = [EMkdir uploadDir])
    /\ trace (serve env (post_candidatura sub) (fresh disk))
       = mkdir ++
         [ EWrite (stored_path env part);
           EUnlink (stored_path env part);
           ERespond (json_response 400 false (Js.lit "E-mail inválido")) ].
Proof.
  intros Hfields Hn He Hp Hshape Hpart Hmime Hsize.
  rewrite (post_with_file _ _ _ part) by assumption.
  assert (incomplete (uploaded env sub) = false) as Hi.
  { unfold incomplete, uploaded. cbn [body file]. rewrite Hfields, Hpart.
    cbn [name email position fmap option_fmap option_map].
    rewrite !truthy_nonempty by assumption.
    rewrite bool_decide_eq_true_2 by eauto. reflexivity. }
  assert (Regex.test emailRegex (Js.to_string (email (body (uploaded env sub)))) = false)
    as Hre.
  { unfold uploaded. cbn [body]. rewrite Hfields. cbn [email Js.to_string].
    destruct (Regex.test emailRegex e) eqn:E; [|reflexivity].
    apply emailRegex_shape in E. contradiction. }
  rewrite handler_bad_email by assumption. cbn [snd].
  rewrite (uploaded_file env sub part Hpart).
  rewrite cleaned_in by apply stored_path_in.
  exists (trace (with_uploadDir (fresh disk))). split; [apply with_uploadDir_trace|].
  unfold log, stored; cbn [fs trace stored_file path].
  rewrite <- !app_assoc. reflexivity.
Qed.

(** X18. There is no retry: a valid post whose transport verifies but
    whose [sendMail] throws makes exactly one [sendMail] call, removes the
    stored file once and answers 500 with the message for the error. *)
Theorem failed_send_is_not_retried
    (env : Env) (sub : Submission) (disk : gset (list N))
    (part : FilePart) (n e p : Js.str) (err : JsError) :
  fields sub = {| name := Some n; email := Some e; position := Some p |} ->
  n <> [] -> email_shape e -> p <> [] ->
  resume sub = Some part ->
  part_mimetype part ∈ allowedMimes ->
  part_size part <= fileSize ->
  verify_result env = None ->
  sendMail_result env = Some err ->
  exists mkdir,
    (mkdir = [] \/ mkdir = [EMkdir uploadDir])
    /\ trace (serve env (post_candidatura sub) (fresh disk))
       = mkdir ++
         [ EWrite (stored_path env part);
           EVerify;
           ESendMail (mailOptions env n e p (stored_file env part));
           ELogError (Js.lit "Erro ao processar candidatura:") err;
           EUnlink (stored_path env part);
           ERespond (json_response 500 false (errorMessage err)) ].
Proof.
  intros Hfields Hn He Hp Hpart Hmime Hsize Hv Hs.
  rewrite (post_with_file _ _ _ part) by assumption.
  rewrite (handler_send_fails _ _ _ (stored_file env part) err);
    [ | apply (uploaded_complete env sub part n e p); assumption
      | apply (uploaded_email_ok env sub n e p); assumption
      | apply uploaded_file; assumption | assumption | assumption ].
  cbn [snd]. rewrite (uploaded_file env sub part Hpart).
  rewrite cleaned_in by (unfold log; cbn [fs]; apply stored_path_in).
  exists (trace (with_uploadDir (fresh disk))). split; [apply with_uploadDir_trace|].
  unfold uploaded; cbn [body]. rewrite Hfields.
  cbn [name email position Js.to_string].
  unfold log, stored; cbn [fs trace stored_file path].
  rewrite <- !app_assoc. reflexivity.
Qed.

(** ** What the pattern lets through *)

(** X19. The pattern checks the shape and nothing else: an accepted
    email stays accepted when any unit that is neither white space nor
    [@] is put in front of it or after it (a dot, a bracket, a quote). *)
Theorem accepted_email_extends (s : Js.str) (c : N) :
  Regex.test emailRegex s = true ->
  Js.is_space c = false -> c <> 64 ->
  Regex.test emailRegex (c :: s) = true
  /\ Regex.test emailRegex (s ++ [c]) = true.
Proof.
  intros H Hsp Hat. rewrite !emailRegex_shape in *.
  destruct H as (loc & dom & tld & -> & Hloc & Hdom & Htld & Floc & Fdom & Ftld).
  assert (plain c) as Hc by (split; assumption).
  split.
  - exists (c :: loc), dom, tld. repeat split; auto; try discriminate.
  - exists loc, dom, (tld ++ [c]). repeat split; auto.
    + repeat (rewrite <- app_assoc || rewrite <- app_comm_cons). reflexivity.
    + destruct tld; discriminate.
    + apply Forall_app. split; [exact Ftld | constructor; [exact Hc | constructor]].
Qed.

(** * Properties of the page script *)

Lemma toggle_elem (token t : Js.str) (classList : list Js.str) :
  t ∈ Page.classList_toggle token classList
  <-> (t = token /\ token ∉ classList) \/ (t <> token /\ t ∈ classList).
Proof.
  unfold Page.classList_toggle.
  destruct (bool_decide (token ∈ classList)) eqn:E.
  - apply bool_decide_eq_true in E. rewrite list_elem_of_filter. split.
    + intros [Hne Hin]. right. auto.
    + intros [[-> Hn] | [Hne Hin]]; [contradiction | auto].
  - apply bool_decide_eq_false in E. rewrite elem_of_app, list_elem_of_singleton.
    split.
    + intros [Hin | ->]; [right | left; auto].
      split; [intros -> | ]; auto.
    + intros [[-> _] | [_ Hin]]; auto.
Qed.

(** X20. Each click on the mobile menu flips the [active] class of the
    navigation links and touches no other class: after [n] clicks
    [active] is there exactly when it was there and [n] is even, or was
    not there and [n] is odd, and every other class is there exactly when
    it was before. *)
Theorem mobile_menu_parity (n : nat) (navLinks : list Js.str) :
  (Js.lit "active" ∈ Page.clicks n navLinks
   <-> (Js.lit "active" ∈ navLinks <-> Nat.even n = true))
  /\ forall t, t <> Js.lit "active" ->
       (t ∈ Page.clicks n navLinks <-> t ∈ navLinks).
Proof.
  revert navLinks. induction n as [|n IH]; intros navLinks.
  - cbn [Page.clicks Nat.even]. split; [tauto|]. tauto.
  - cbn [Page.clicks]. destruct (IH (Page.mobileMenu_click navLinks)) as [IHa IHo].
    unfold Page.mobileMenu_click in *. split.
    + rewrite IHa, toggle_elem, Nat.even_succ, <- Nat.negb_even.
      destruct (Nat.even n); cbn [negb];
        destruct (decide (Js.lit "active" ∈ navLinks)); split; intros H;
        try tauto; try (destruct H as [H _]); intuition congruence.
    + intros t Ht. rewrite (IHo t Ht), toggle_elem. tauto.
Qed.

Lemma show_show (el : Page.Style) : Page.show (Page.show el) = Page.show el.
Proof. reflexivity. Qed.

(** Whether some entry of the list reports the element at [i] as
    intersecting. *)
Lemma observer_callback_lookup (entries : list Page.Entry) (els : list Page.Style) (i : nat) :
  Page.observer_callback entries els !! i
  = if bool_decide (Exists (fun e => Page.target e = i /\ Page.isIntersecting e = true) entries)
    then Page.show <$> els !! i
    else els !! i.
Proof.
  unfold Page.observer_callback. revert els.
  induction entries as [|e entries IH]; intros els.
  - cbn [foldl]. rewrite bool_decide_eq_false_2; [reflexivity|].
    intros H. inversion H.
  - cbn [foldl]. rewrite IH. unfold Page.on_entry.
    destruct (Page.isIntersecting e) eqn:Hint.
    + destruct (decide (Page.target e = i)) as [Ht|Ht].
      * rewrite (bool_decide_eq_true_2 (Exists _ (e :: entries)))
          by (apply Exists_cons_hd; auto).
        subst i. rewrite list_lookup_alter_eq.
        destruct (bool_decide _); [|reflexivity].
        destruct (els !! Page.target e); reflexivity.
      * rewrite list_lookup_alter_ne by exact Ht.
        rewrite (bool_decide_ext
                   (Exists (fun e0 => Page.target e0 = i /\ Page.isIntersecting e0 = true)
                      (e :: entries))
                   (Exists (fun e0 => Page.target e0 = i /\ Page.isIntersecting e0 = true)
                      entries)); [reflexivity|].
        rewrite Exists_cons. tauto.
    + rewrite (bool_decide_ext
                 (Exists (fun e0 => Page.target e0 = i /\ Page.isIntersecting e0 = true)
                    (e :: entries))
                 (Exists (fun e0 => Page.target e0 = i /\ Page.isIntersecting e0 = true)
                    entries)); [reflexivity|].
      rewrite Exists_cons. intuition congruence.
Qed.

(** X21. After the set-up and any run of observer callbacks, an observed
    element is shown (opacity 1, no offset) exactly when some entry so
    far reported it as intersecting, and is otherwise still hidden
    (opacity 0, offset 30px); the transition of the set-up stays. An
    entry that reports an element as no longer intersecting changes
    nothing. *)
Theorem observed_element_is_shown_iff_seen
    (entries : list Page.Entry) (els : list Page.Style) (i : nat) (el : Page.Style) :
  Page.observer_callback entries (Page.prepare <$> els) !! i = Some el ->
  Page.transition el = Js.lit "opacity 0.6s ease, transform 0.6s ease"
  /\ ((Exists (fun e => Page.target e = i /\ Page.isIntersecting e = true) entries
       /\ Page.opacity el = Js.lit "1"
       /\ Page.transform el = Js.lit "translateY(0)")
      \/ (~ Exists (fun e => Page.target e = i /\ Page.isIntersecting e = true) entries
          /\ Page.opacity el = Js.lit "0"
          /\ Page.transform el = Js.lit "translateY(30px)")).
Proof.
  rewrite observer_callback_lookup, list_lookup_fmap.
  destruct (els !! i) as [el0|]; cbn [fmap option_fmap option_map].
  2:{ destruct (bool_decide _); discriminate. }
  destruct (bool_decide _) eqn:E.
  - apply bool_decide_eq_true in E. intros [= <-]. split; [reflexivity|]. left. auto.
  - apply bool_decide_eq_false in E. intros [= <-]. split; [reflexivity|]. right. auto.
Qed.

(** X22. The observer never hides an element again: once the opacity of
    an element is 1, it is 1 after any further callback, whatever the
    entries report. *)
Theorem shown_element_stays_shown
    (entries : list Page.Entry) (els : list Page.Style) (i : nat) (el el' : Page.Style) :
  els !! i = Some el ->
  Page.opacity el = Js.lit "1" ->
  Page.observer_callback entries els !! i = Some el' ->
  Page.opacity el' = Js.lit "1".
Proof.
  intros Hi Hop. rewrite observer_callback_lookup, Hi.
  destruct (bool_decide _); intros [= <-]; [reflexivity | exact Hop].
Qed.

(** X23. The floating elements get the delays [0s], [2s], [4s], ... by
    position: the element at position [i] gets [2 * i] seconds and keeps
    its other properties, and two different positions never get the same
    delay. *)
Theorem floating_delays_by_position :
  (forall els i el,
     els !! i = Some el ->
     exists el',
       Page.set_delays els !! i = Some el'
       /\ Page.animationDelay el' = Js.of_number (2 * N.of_nat i) ++ Js.lit "s"
       /\ Page.opacity el' = Page.opacity el
       /\ Page.transform el' = Page.transform el
       /\ Page.transition el' = Page.transition el)
  /\ (forall i j, Page.delay i = Page.delay j -> i = j).
Proof.
  split.
  - intros els i el H. unfold Page.set_delays. rewrite list_lookup_imap, H.
    eexists. split; [reflexivity|]. cbn. unfold Page.delay.
    rewrite N.mul_comm. auto.
  - intros i j H. unfold Page.delay in H.
    apply app_inv_tail in H. apply of_number_inj in H. lia.
Qed.

(** ** The further properties at sample inputs *)

Lemma empty_field_is_rejected_witness :
  name (body blank_name_req) = Some []
  /\ responses (trace (handle env_ok blank_name_req {[ path cv_stored ]}))
     = [json_response 400 false (Js.lit "Todos os campos são obrigatórios")]
  /\ (path cv_stored ∉ fs (handle env_ok blank_name_req {[ path cv_stored ]})).
Proof.
  split; [reflexivity|].
  destruct (empty_field_is_rejected env_ok blank_name_req {[ path cv_stored ]})
    as (H1 & _ & H3); [left; reflexivity|].
  split; [exact H1 | apply H3; reflexivity].
Defined.

Lemma accepted_email_facts_witness :
  Regex.test emailRegex (Js.lit "ana.souza@example.com") = true
  /\ count_occ N.eq_dec (Js.lit "ana.souza@example.com") 64 = 1%nat
  /\ (5 <= length (Js.lit "ana.souza@example.com"))%nat.
Proof.
  split; [vm_compute; reflexivity|].
  destruct (accepted_email_facts (Js.lit "ana.souza@example.com"))
    as (H1 & _ & H3 & _); [vm_compute; reflexivity|].
  split; assumption.
Defined.

Lemma storage_filename_determines_its_parts_witness :
  storage_filename env_ok cv_pdf = storage_filename env_down cv_pdf
  /\ date_now env_ok = date_now env_down
  /\ random_1e9 env_ok = random_1e9 env_down.
Proof.
  split; [reflexivity|].
  destruct (storage_filename_determines_its_parts env_ok env_down cv_pdf cv_pdf)
    as (H1 & H2 & _); [reflexivity|].
  split; assumption.
Defined.


Lemma intake_takes_post_only_witness :
  responses (trace (serve env_ok (request GET (Js.lit "/enviar-candidatura")) (fresh ∅)))
  = [json_response 404 false (Js.lit "Rota não encontrada")].
Proof.
  rewrite (intake_takes_post_only env_ok (request GET (Js.lit "/enviar-candidatura"))
             (fresh ∅)); [reflexivity | reflexivity | discriminate | set_solver].
Defined.

Lemma health_answers_ok_witness :
  responses (trace (serve env_ok (request GET (Js.lit "/health")) (fresh ∅)))
  = [ {| status := 200;
         payload := Json (JObject [("status"%string, JString (Js.lit "OK"));
                                   ("timestamp"%string,
                                    JString (Js.lit "2023-11-14T22:13:20.123Z"))]) |} ].
Proof.
  rewrite (health_answers_ok env_ok (request GET (Js.lit "/health")) (fresh ∅));
    [reflexivity | reflexivity | reflexivity | set_solver].
Defined.

Lemma accepted_upload_never_outlives_the_post_witness :
  stored_path env_down cv_pdf
  ∉ fs (serve env_down (post_candidatura (submission cv_pdf)) (fresh ∅)).
Proof.
  apply (accepted_upload_never_outlives_the_post env_down (submission cv_pdf) ∅ cv_pdf);
    [reflexivity | exact pdf_allowed | exact cv_small].
Defined.

Lemma big_pdf_allowed : part_mimetype big_pdf ∈ allowedMimes.
Proof. apply list_elem_of_here. Defined.

Lemma big_pdf_large : fileSize < part_size big_pdf.
Proof. vm_compute. reflexivity. Defined.

Lemma oversized_upload_is_removed_and_answered_500_witness :
  fs (serve env_ok (post_candidatura (submission big_pdf)) (fresh ∅))
  = ({[ uploadDir ]} ∪ ∅) ∖ {[ stored_path env_ok big_pdf ]}.
Proof.
  destruct (oversized_upload_is_removed_and_answered_500 env_ok (submission big_pdf) ∅
              big_pdf)
    as (mkdir & _ & _ & H); [reflexivity | exact big_pdf_allowed | exact big_pdf_large |].
  exact H.
Defined.

Lemma post_without_resume_is_rejected_witness :
  serve env_ok (post_candidatura {| fields := ana; resume := None |}) (fresh ∅)
  = {| fs := ∅;
       trace := [ERespond (json_response 400 false
                   (Js.lit "Todos os campos são obrigatórios"))] |}.
Proof.
  apply (post_without_resume_is_rejected env_ok {| fields := ana; resume := None |} ∅).
  reflexivity.
Defined.

Lemma malformed_email_post_stores_then_removes_witness :
  exists mkdir,
    trace (serve env_ok (post_candidatura dotless_submission) (fresh ∅))
    = mkdir ++
      [ EWrite (stored_path env_ok cv_pdf);
        EUnlink (stored_path env_ok cv_pdf);
        ERespond (json_response 400 false (Js.lit "E-mail inválido")) ].
Proof.
  destruct (malformed_email_post_stores_then_removes env_ok dotless_submission ∅ cv_pdf
              (Js.lit "Ana Souza") (Js.lit "ana.souza@example") (Js.lit "Desenvolvedora"))
    as (mkdir & _ & H);
    [ reflexivity | vm_compute; discriminate | vm_compute; discriminate
    | vm_compute; discriminate | exact dotless_no_shape | reflexivity
    | exact pdf_allowed | exact cv_small | ].
  exists mkdir. exact H.
Defined.

Lemma failed_send_is_not_retried_witness :
  exists mkdir,
    trace (serve env_refused (post_candidatura (submission cv_pdf)) (fresh ∅))
    = mkdir ++
      [ EWrite (stored_path env_refused cv_pdf);
        EVerify;
        ESendMail (mailOptions env_refused (Js.lit "Ana Souza")
                     (Js.lit "ana.souza@example.com") (Js.lit "Desenvolvedora")
                     (stored_file env_refused cv_pdf));
        ELogError (Js.lit "Erro ao processar candidatura:") EENVELOPE;
        EUnlink (stored_path env_refused cv_pdf);
        ERespond (json_response 500 false (errorMessage EENVELOPE)) ].
Proof.
  destruct (failed_send_is_not_retried env_refused (submission cv_pdf) ∅ cv_pdf
              (Js.lit "Ana Souza") (Js.lit "ana.souza@example.com")
              (Js.lit "Desenvolvedora") EENVELOPE)
    as (mkdir & _ & H);
    [ exact ana_fields | vm_compute; discriminate | exact ana_email_shape
    | vm_compute; discriminate | reflexivity | exact pdf_allowed | exact cv_small
    | reflexivity | reflexivity | ].
  exists mkdir. exact H.
Defined.

Lemma accepted_email_extends_witness :
  Regex.test emailRegex (60 :: Js.lit "ana.souza@example.com") = true
  /\ Regex.test emailRegex (Js.lit "ana.souza@example.com" ++ [60]) = true.
Proof.
  apply (accepted_email_extends (Js.lit "ana.souza@example.com") 60);
    [vm_compute; reflexivity | reflexivity | discriminate].
Defined.

Lemma observed_element_is_shown_iff_seen_witness :
  Page.opacity (Page.show (Page.prepare card)) = Js.lit "1"
  /\ Page.transition (Page.show (Page.prepare card))
     = Js.lit "opacity 0.6s ease, transform 0.6s ease".
Proof.
  destruct (observed_element_is_shown_iff_seen
              [ {| Page.target := 1; Page.isIntersecting := false |};
                {| Page.target := 0; Page.isIntersecting := true |} ]
              [card; card] 0 (Page.show (Page.prepare card)))
    as (H1 & H2); [reflexivity|].
  split; [reflexivity | exact H1].
Defined.

Lemma shown_element_stays_shown_witness :
  Page.opacity (Page.show (Page.prepare card)) = Js.lit "1".
Proof.
  apply (shown_element_stays_shown
           [ {| Page.target := 0; Page.isIntersecting := false |} ]
           [Page.show (Page.prepare card)] 0
           (Page.show (Page.prepare card)) (Page.show (Page.prepare card)));
    reflexivity.
Defined.
